(** * MCP-VulnScanner: the Nmap command-dispatch gateway

    A shallow embedding of [src/mcp-security/mcp-security.py]: the catalog of
    [@mcp.tool()] operations, the executor [run_nmap_command] they all go
    through, and the raw path [execute_custom_nmap_command].

    Python [str] values are sequences of Unicode code points; [subprocess.run]
    is the only effect, and it is kept explicit: a program is a tree that
    either returns, raises, or spawns a process and continues with what the
    process did. *)

From Stdlib Require Import List String Ascii ZArith NArith Bool Lia DecimalString.
From Stdlib Require DecimalPos DecimalZ.
Import ListNotations.

Local Open Scope Z_scope.

(** ** Python strings *)

(** A Python [str]: its code points, in order. *)
Abbreviation str := (list N) (only parsing).

(** A source literal (ASCII only in this program) as a [str]. *)
Definition lit (s : string) : str := map N_of_ascii (list_ascii_of_string s).

(** The character U+0022, the escaped quotation mark of the source's
    literals. *)
Definition dquote : str := [34%N].

Definition LF : N := 10%N.
Definition CR : N := 13%N.

(** The line separator ["\n"] of [vulscan_output_limit]. *)
Definition newline : str := [LF].

Fixpoint str_eqb (a b : str) : bool :=
  match a, b with
  | [], [] => true
  | x :: a', y :: b' => N.eqb x y && str_eqb a' b'
  | _, _ => false
  end.

(** The truth value of a [str] in a condition: it is not empty. *)
Definition truthy (s : str) : bool :=
  match s with
  | [] => false
  | _ :: _ => true
  end.

(** The decimal numeral [str(n)] prints for a Python [int]; the interpreter's
    limit on its length is in [py_str]. *)
Definition str_int (z : Z) : str := lit (NilZero.string_of_int (Z.to_int z)).

(** [sep.join(parts)]. *)
Fixpoint join (sep : str) (parts : list str) : str :=
  match parts with
  | [] => []
  | [x] => x
  | x :: rest => x ++ sep ++ join sep rest
  end.

(** The code points [str.splitlines] breaks a line at. *)
Definition is_linebreak (c : N) : bool :=
  existsb (N.eqb c)
    [10; 11; 12; 13; 28; 29; 30; 133; 8232; 8233]%N.

(** [str.splitlines()] without [keepends]: a line ends at a line break, CR LF
    counts as one break, and no empty line is produced after the last break.
    [cur] is the current line, reversed. *)
Fixpoint splitlines_from (cur : str) (s : str) : list str :=
  match s with
  | [] => match cur with [] => [] | _ => [rev cur] end
  | c :: rest =>
      if is_linebreak c then
        rev cur ::
          match rest with
          | d :: rest' =>
              if N.eqb c CR && N.eqb d LF then splitlines_from [] rest'
              else splitlines_from [] rest
          | [] => splitlines_from [] rest
          end
      else splitlines_from (c :: cur) rest
  end.

Definition splitlines (s : str) : list str := splitlines_from [] s.

(** The code points [str.isspace] accepts, the separators of [str.split()]. *)
Definition isspace (c : N) : bool :=
  ((9 <=? c) && (c <=? 13) || (28 <=? c) && (c <=? 32)
   || (8192 <=? c) && (c <=? 8202)
   || existsb (N.eqb c) [133; 160; 5760; 8232; 8233; 8239; 8287; 12288])%N.

(** [str.split()] with no separator: the maximal runs of non-space code
    points. [cur] is the current run, reversed. *)
Fixpoint split_from (cur : str) (s : str) : list str :=
  match s with
  | [] => match cur with [] => [] | _ => [rev cur] end
  | c :: rest =>
      if isspace c then
        match cur with
        | [] => split_from [] rest
        | _ => rev cur :: split_from [] rest
        end
      else split_from (c :: cur) rest
  end.

Definition split (s : str) : list str := split_from [] s.

(** The slice [l[:stop]] for a Python [int] [stop]: a negative [stop] counts
    from the end, and both ends are clamped to the list. *)
Definition slice_to {A : Type} (l : list A) (stop : Z) : list A :=
  let n := Z.of_nat (List.length l) in
  let stop' := if stop <? 0 then Z.max (stop + n) 0 else Z.min stop n in
  firstn (Z.to_nat stop') l.

(** ** Processes and exceptions *)

(** The first argument of [subprocess.run]: a list of arguments, or one
    command line. *)
Inductive Command : Type :=
| Argv (args : list str)
| CommandLine (line : str).

(** One call of [subprocess.run], with the keyword arguments the program
    passes. [shell] is [False] when the keyword is absent. *)
Record Request : Type := mkRequest {
  req_cmd : Command;
  req_shell : bool;
  req_capture_output : bool;
  req_text : bool;
  req_timeout : Z
}.

(** What the child process does with a request. *)
Inductive Behaviour : Type :=
| Exits (stdout stderr : str) (returncode : Z)
    (* the process ends within the deadline *)
| Overruns (partial_stdout partial_stderr : option str)
    (* the deadline passes first; the output captured so far *)
| Fails (message : str).
    (* any other fault of process creation or execution:
       an [Exception] whose [str()] is [message] *)

Record CompletedProcess : Type := mkCompleted {
  cp_args : Command;
  cp_returncode : Z;
  cp_stdout : str;
  cp_stderr : str
}.

Inductive PyException : Type :=
| TimeoutExpired (cmd : Command) (timeout : Z) (output stderr : option str)
| OtherException (message : str).

Definition is_TimeoutExpired (e : PyException) : bool :=
  match e with TimeoutExpired _ _ _ _ => true | OtherException _ => false end.

(** ** Programs *)

Inductive Prog (A : Type) : Type :=
| Ret (a : A)
| Raise (e : PyException)
| Spawn (req : Request) (k : Behaviour -> Prog A).

Arguments Ret {A} a.
Arguments Raise {A} e.
Arguments Spawn {A} req k.

Fixpoint bind {A B : Type} (p : Prog A) (f : A -> Prog B) : Prog B :=
  match p with
  | Ret a => f a
  | Raise e => Raise e
  | Spawn req k => Spawn req (fun b => bind (k b) f)
  end.

(** [try: p  except ...: h e]; [h] receives every exception of the body (all
    the exceptions of this model are instances of [Exception]). *)
Fixpoint try_except {A : Type} (p : Prog A) (h : PyException -> Prog A) : Prog A :=
  match p with
  | Ret a => Ret a
  | Raise e => h e
  | Spawn req k => Spawn req (fun b => try_except (k b) h)
  end.

Declare Scope prog_scope.
Delimit Scope prog_scope with prog.
Notation "x <- p ;; q" := (bind p (fun x => q))
  (at level 100, p at next level, right associativity) : prog_scope.

(** How a call ends for its caller. *)
Inductive Result (A : Type) : Type :=
| Returned (a : A)
| Propagated (e : PyException).

Arguments Returned {A} a.
Arguments Propagated {A} e.

(** Running a program against the processes of an environment: the requests
    it made, in order, and how it ended. *)
Fixpoint run {A : Type} (env : Request -> Behaviour) (p : Prog A)
  : list Request * Result A :=
  match p with
  | Ret a => ([], Returned a)
  | Raise e => ([], Propagated e)
  | Spawn req k =>
      let (reqs, r) := run env (k (env req)) in (req :: reqs, r)
  end.

Definition requests {A : Type} (env : Request -> Behaviour) (p : Prog A) : list Request :=
  fst (run env p).

Definition outcome {A : Type} (env : Request -> Behaviour) (p : Prog A) : Result A :=
  snd (run env p).

(** [subprocess.run(cmd, shell=.., capture_output=True, text=True, timeout=..)]:
    a [CompletedProcess] whatever the exit status ([check] is not set), a
    [TimeoutExpired] carrying the command and the deadline, or the fault. *)
Definition subprocess_run (cmd : Command) (shell : bool) (timeout : Z)
  : Prog CompletedProcess :=
  Spawn (mkRequest cmd shell true true timeout)
    (fun b =>
       match b with
       | Exits out err rc => Ret (mkCompleted cmd rc out err)
       | Overruns out err => Raise (TimeoutExpired cmd timeout out err)
       | Fails message => Raise (OtherException message)
       end).

(** [repr] on the strings this file runs its examples on: printable ASCII
    with no quote and no backslash, which Python prints between single
    quotes unchanged. *)
Definition quoted (s : str) : str := lit "'" ++ s ++ lit "'".

(** ** Sample inputs *)

Definition localhost : str := lit "127.0.0.1".

Definition cve_csv : str := lit "cve.csv".

(** The binary is not installed: process creation fails. *)
Definition binary_missing : Request -> Behaviour :=
  fun _ => Fails (lit "[Errno 2] No such file or directory: 'nmap'").

(** The process is still running at the deadline, with some output so far. *)
Definition too_slow : Request -> Behaviour :=
  fun _ => Overruns (Some (lit "Starting Nmap")) None.

(** The process prints three lines and ends with the given exit code. *)
Definition three_lines (rc : Z) : Request -> Behaviour :=
  fun _ => Exits (lit "a" ++ newline ++ lit "b" ++ newline ++ lit "c") (lit "warning") rc.

(** The process prints one line, ended by a newline. *)
Definition one_line : Request -> Behaviour :=
  fun _ => Exits (lit "a" ++ newline) [] 0.

(** The process prints two lines, each ended by CR LF. *)
Definition crlf_lines : Request -> Behaviour :=
  fun _ => Exits (lit "a" ++ [CR; LF] ++ lit "b" ++ [CR; LF]) [] 0.

(** The command line holds a NUL, which process creation refuses. *)
Definition nul_in_command : Request -> Behaviour :=
  fun _ => Fails (lit "embedded null byte").

(** The process prints nothing and ends with the given exit code. *)
Definition silent (rc : Z) : Request -> Behaviour :=
  fun _ => Exits [] [] rc.

Section Gateway.

(** [repr] of a [str], as the Python runtime prints it inside the [repr] of
    a list; it is a parameter of the development. *)
Variable repr : str -> str.

(** [str(cmd)] for the [cmd] attribute of a [TimeoutExpired]. *)
Definition str_command (cmd : Command) : str :=
  match cmd with
  | Argv args => lit "[" ++ join (lit ", ") (map repr args) ++ lit "]"
  | CommandLine line => line
  end.

(** [str(e)]; for [TimeoutExpired] it is
    ["Command '%s' timed out after %s seconds" % (cmd, timeout)]. *)
Definition str_exception (e : PyException) : str :=
  match e with
  | TimeoutExpired cmd timeout _ _ =>
      lit "Command '" ++ str_command cmd ++ lit "' timed out after "
        ++ str_int timeout ++ lit " seconds"
  | OtherException message => message
  end.

(** ** The executor of the catalog path *)

Definition run_nmap_command (args : list str) : Prog str :=
  try_except
    (result <- subprocess_run (Argv ([lit "nmap"] ++ args)) false 60 ;;
     Ret (cp_stdout result))%prog
    (fun e => Ret (lit "Error running Nmap: " ++ str_exception e)).

(** ** The catalog *)

Definition simple_scan (target : str) : Prog str :=
  run_nmap_command [lit "-T4"; target].

Definition port_scan (target ports : str) : Prog str :=
  run_nmap_command [lit "-p"; ports; lit "-T4"; target].

Definition os_detection (target : str) : Prog str :=
  run_nmap_command [lit "-O"; target].

Definition full_scan (target : str) : Prog str :=
  run_nmap_command [lit "-sS"; lit "-sV"; lit "-T4"; lit "-A"; target].

Definition ping_scan (target : str) : Prog str :=
  run_nmap_command [lit "-sn"; target].

Definition scan_specific_port (target port : str) : Prog str :=
  run_nmap_command [lit "-p"; port; lit "-T4"; target].

Definition service_version_detection (target : str) : Prog str :=
  run_nmap_command [lit "-sV"; target].

Definition aggressive_scan (target : str) : Prog str :=
  run_nmap_command [lit "-A"; target].

Definition scan_port_range (target port_range : str) : Prog str :=
  run_nmap_command [lit "-p"; port_range; lit "-T4"; target].

Definition http_title_scan (target : str) : Prog str :=
  run_nmap_command [lit "-p"; lit "80"; lit "--script"; lit "http-title"; target].

Definition traceroute_scan (target : str) : Prog str :=
  run_nmap_command [lit "--traceroute"; target].

Definition vulscan_basic (target database : str) : Prog str :=
  run_nmap_command
    [lit "-sV";
     lit "--script=vulscan/vulscan.nse";
     lit "--script-args"; dquote ++ lit "vulscandb=" ++ database ++ dquote;
     target].

Definition vulscan_output_limit (target database : str) (limit : Z) : Prog str :=
  let command_args :=
    [lit "-sV";
     lit "--script=vulscan/vulscan.nse";
     lit "--script-args";
     dquote ++ lit "vulscandb=" ++ database
       ++ lit ",vulscanshowall=0,vulscanoutput='{id} - {title}'" ++ dquote;
     target] in
  (full_output <- run_nmap_command command_args ;;
   let output_lines := splitlines full_output in
   let limited_results := join newline (slice_to output_lines limit) in
   Ret limited_results)%prog.

Definition vulscan_interactive (target database : str) : Prog str :=
  run_nmap_command
    [lit "-sV";
     lit "--script=vulscan/vulscan.nse";
     lit "--script-args";
     dquote ++ lit "vulscandb=" ++ database ++ lit ",vulscaninteractive=1" ++ dquote;
     target].

Definition vulscan_custom_output (target database custom_template : str) : Prog str :=
  run_nmap_command
    [lit "-sV";
     lit "--script=vulscan/vulscan.nse";
     lit "--script-args";
     dquote ++ lit "vulscandb=" ++ database ++ lit ",vulscanoutput='"
       ++ custom_template ++ lit "'" ++ dquote;
     target].

Definition ping_subnet_scan (subnet : str) : Prog str :=
  run_nmap_command [lit "-sP"; subnet].

Definition single_host_scan (target : str) : Prog str :=
  run_nmap_command [target].

Definition stealth_scan (target : str) : Prog str :=
  run_nmap_command [lit "-sS"; target].

Definition scan_multiple_hosts (hosts : str) : Prog str :=
  let host_list := split hosts in
  run_nmap_command host_list.

Definition scan_ip_range (ip_range : str) : Prog str :=
  run_nmap_command [ip_range].

Definition scan_tcp_port (target port : str) : Prog str :=
  run_nmap_command [lit "-p"; port; target].

Definition scan_top_ports (target : str) (num_ports : Z) : Prog str :=
  run_nmap_command [lit "--top-ports"; str_int num_ports; target].

Definition scan_from_file (file_path : str) : Prog str :=
  run_nmap_command [lit "-iL"; file_path].

Definition verbose_scan (target : str) : Prog str :=
  run_nmap_command [lit "-v"; target].

Definition scan_with_normal_output (target output_file : str) : Prog str :=
  run_nmap_command [lit "-oN"; output_file; target].

Definition scan_with_xml_output (target output_file : str) : Prog str :=
  run_nmap_command [lit "-oX"; output_file; target].

Definition scan_with_all_formats (target output_base : str) : Prog str :=
  run_nmap_command [lit "-oA"; output_base; target].

Definition nmap_help : Prog str :=
  run_nmap_command [lit "-h"].

Definition udp_scan (target : str) : Prog str :=
  run_nmap_command [lit "-sU"; target].

Definition fin_scan (target : str) : Prog str :=
  run_nmap_command [lit "-sF"; target].

Definition xmas_scan (target : str) : Prog str :=
  run_nmap_command [lit "-sX"; target].

Definition null_scan (target : str) : Prog str :=
  run_nmap_command [lit "-sN"; target].

Definition tcp_connect_scan (target : str) : Prog str :=
  run_nmap_command [lit "-sT"; target].

Definition stealth_scan_no_ping (target : str) : Prog str :=
  run_nmap_command [lit "-sS"; lit "-Pn"; target].

Definition tcp_connect_scan_no_ping (target : str) : Prog str :=
  run_nmap_command [lit "-sT"; lit "-Pn"; target].

Definition udp_scan_no_ping (target : str) : Prog str :=
  run_nmap_command [lit "-sU"; lit "-Pn"; target].

Definition service_version_scan_no_ping (target : str) : Prog str :=
  run_nmap_command [lit "-sV"; lit "-Pn"; target].

Definition aggressive_scan_no_ping (target : str) : Prog str :=
  run_nmap_command [lit "-A"; lit "-Pn"; target].

Definition port_scan_no_ping (target ports : str) : Prog str :=
  run_nmap_command [lit "-p"; ports; lit "-Pn"; target].

Definition fin_scan_no_ping (target : str) : Prog str :=
  run_nmap_command [lit "-sF"; lit "-Pn"; target].

Definition xmas_scan_no_ping (target : str) : Prog str :=
  run_nmap_command [lit "-sX"; lit "-Pn"; target].

Definition null_scan_no_ping (target : str) : Prog str :=
  run_nmap_command [lit "-sN"; lit "-Pn"; target].

Definition top_ports_scan_no_ping (target : str) (num_ports : Z) : Prog str :=
  run_nmap_command [lit "--top-ports"; str_int num_ports; lit "-Pn"; target].

(** ** The raw path *)

(** The [except subprocess.TimeoutExpired] clause comes first; the
    [except Exception] clause takes what is left. *)
Definition execute_custom_nmap_command (command : str) : Prog str :=
  try_except
    (result <- subprocess_run (CommandLine command) true 120 ;;
     let output := [] in
     let output :=
       if truthy (cp_stdout result)
       then output ++ lit "STDOUT:" ++ newline ++ cp_stdout result ++ newline
       else output in
     let output :=
       if truthy (cp_stderr result)
       then output ++ lit "STDERR:" ++ newline ++ cp_stderr result ++ newline
       else output in
     let output :=
       if negb (cp_returncode result =? 0)
       then output ++ lit "Return Code: " ++ str_int (cp_returncode result) ++ newline
       else output in
     Ret (if truthy output
          then output
          else lit "Command executed successfully with no output."))%prog
    (fun e =>
       if is_TimeoutExpired e
       then Ret (lit "Error: Command timed out after 120 seconds")
       else Ret (lit "Error executing command: " ++ str_exception e)).

(** ** Calls of the catalog

    One constructor per [@mcp.tool()] function that goes through
    [run_nmap_command], with the values of its parameters; the raw path
    [execute_custom_nmap_command] is kept apart. *)

(** A parameter value as the caller supplies it. *)
Inductive Value : Type :=
| VStr (s : str)
| VInt (z : Z).

(** The text a value has when it is placed in an argument vector. *)
Definition text (v : Value) : str :=
  match v with
  | VStr s => s
  | VInt z => str_int z
  end.

Inductive Call : Type :=
| Simple_scan (target : str)
| Port_scan (target : str) (ports : str)
| Os_detection (target : str)
| Full_scan (target : str)
| Ping_scan (target : str)
| Scan_specific_port (target : str) (port : str)
| Service_version_detection (target : str)
| Aggressive_scan (target : str)
| Scan_port_range (target : str) (port_range : str)
| Http_title_scan (target : str)
| Traceroute_scan (target : str)
| Vulscan_basic (target : str) (database : str)
| Vulscan_output_limit (target : str) (database : str) (limit : Z)
| Vulscan_interactive (target : str) (database : str)
| Vulscan_custom_output (target : str) (database : str) (custom_template : str)
| Ping_subnet_scan (subnet : str)
| Single_host_scan (target : str)
| Stealth_scan (target : str)
| Scan_multiple_hosts (hosts : str)
| Scan_ip_range (ip_range : str)
| Scan_tcp_port (target : str) (port : str)
| Scan_top_ports (target : str) (num_ports : Z)
| Scan_from_file (file_path : str)
| Verbose_scan (target : str)
| Scan_with_normal_output (target : str) (output_file : str)
| Scan_with_xml_output (target : str) (output_file : str)
| Scan_with_all_formats (target : str) (output_base : str)
| Nmap_help
| Udp_scan (target : str)
| Fin_scan (target : str)
| Xmas_scan (target : str)
| Null_scan (target : str)
| Tcp_connect_scan (target : str)
| Stealth_scan_no_ping (target : str)
| Tcp_connect_scan_no_ping (target : str)
| Udp_scan_no_ping (target : str)
| Service_version_scan_no_ping (target : str)
| Aggressive_scan_no_ping (target : str)
| Port_scan_no_ping (target : str) (ports : str)
| Fin_scan_no_ping (target : str)
| Xmas_scan_no_ping (target : str)
| Null_scan_no_ping (target : str)
| Top_ports_scan_no_ping (target : str) (num_ports : Z).

Definition dispatch (c : Call) : Prog str :=
  match c with
  | Simple_scan target => simple_scan target
  | Port_scan target ports => port_scan target ports
  | Os_detection target => os_detection target
  | Full_scan target => full_scan target
  | Ping_scan target => ping_scan target
  | Scan_specific_port target port => scan_specific_port target port
  | Service_version_detection target => service_version_detection target
  | Aggressive_scan target => aggressive_scan target
  | Scan_port_range target port_range => scan_port_range target port_range
  | Http_title_scan target => http_title_scan target
  | Traceroute_scan target => traceroute_scan target
  | Vulscan_basic target database => vulscan_basic target database
  | Vulscan_output_limit target database limit => vulscan_output_limit target database limit
  | Vulscan_interactive target database => vulscan_interactive target database
  | Vulscan_custom_output target database custom_template => vulscan_custom_output target database custom_template
  | Ping_subnet_scan subnet => ping_subnet_scan subnet
  | Single_host_scan target => single_host_scan target
  | Stealth_scan target => stealth_scan target
  | Scan_multiple_hosts hosts => scan_multiple_hosts hosts
  | Scan_ip_range ip_range => scan_ip_range ip_range
  | Scan_tcp_port target port => scan_tcp_port target port
  | Scan_top_ports target num_ports => scan_top_ports target num_ports
  | Scan_from_file file_path => scan_from_file file_path
  | Verbose_scan target => verbose_scan target
  | Scan_with_normal_output target output_file => scan_with_normal_output target output_file
  | Scan_with_xml_output target output_file => scan_with_xml_output target output_file
  | Scan_with_all_formats target output_base => scan_with_all_formats target output_base
  | Nmap_help => nmap_help
  | Udp_scan target => udp_scan target
  | Fin_scan target => fin_scan target
  | Xmas_scan target => xmas_scan target
  | Null_scan target => null_scan target
  | Tcp_connect_scan target => tcp_connect_scan target
  | Stealth_scan_no_ping target => stealth_scan_no_ping target
  | Tcp_connect_scan_no_ping target => tcp_connect_scan_no_ping target
  | Udp_scan_no_ping target => udp_scan_no_ping target
  | Service_version_scan_no_ping target => service_version_scan_no_ping target
  | Aggressive_scan_no_ping target => aggressive_scan_no_ping target
  | Port_scan_no_ping target ports => port_scan_no_ping target ports
  | Fin_scan_no_ping target => fin_scan_no_ping target
  | Xmas_scan_no_ping target => xmas_scan_no_ping target
  | Null_scan_no_ping target => null_scan_no_ping target
  | Top_ports_scan_no_ping target num_ports => top_ports_scan_no_ping target num_ports
  end.

(** The parameters of a call, by name, as the [def] declares them. *)
Definition arguments (c : Call) : list (string * Value) :=
  match c with
  | Simple_scan target => [("target"%string, VStr target)]
  | Port_scan target ports => [("target"%string, VStr target); ("ports"%string, VStr ports)]
  | Os_detection target => [("target"%string, VStr target)]
  | Full_scan target => [("target"%string, VStr target)]
  | Ping_scan target => [("target"%string, VStr target)]
  | Scan_specific_port target port => [("target"%string, VStr target); ("port"%string, VStr port)]
  | Service_version_detection target => [("target"%string, VStr target)]
  | Aggressive_scan target => [("target"%string, VStr target)]
  | Scan_port_range target port_range => [("target"%string, VStr target); ("port_range"%string, VStr port_range)]
  | Http_title_scan target => [("target"%string, VStr target)]
  | Traceroute_scan target => [("target"%string, VStr target)]
  | Vulscan_basic target database => [("target"%string, VStr target); ("database"%string, VStr database)]
  | Vulscan_output_limit target database limit => [("target"%string, VStr target); ("database"%string, VStr database); ("limit"%string, VInt limit)]
  | Vulscan_interactive target database => [("target"%string, VStr target); ("database"%string, VStr database)]
  | Vulscan_custom_output target database custom_template => [("target"%string, VStr target); ("database"%string, VStr database); ("custom_template"%string, VStr custom_template)]
  | Ping_subnet_scan subnet => [("subnet"%string, VStr subnet)]
  | Single_host_scan target => [("target"%string, VStr target)]
  | Stealth_scan target => [("target"%string, VStr target)]
  | Scan_multiple_hosts hosts => [("hosts"%string, VStr hosts)]
  | Scan_ip_range ip_range => [("ip_range"%string, VStr ip_range)]
  | Scan_tcp_port target port => [("target"%string, VStr target); ("port"%string, VStr port)]
  | Scan_top_ports target num_ports => [("target"%string, VStr target); ("num_ports"%string, VInt num_ports)]
  | Scan_from_file file_path => [("file_path"%string, VStr file_path)]
  | Verbose_scan target => [("target"%string, VStr target)]
  | Scan_with_normal_output target output_file => [("target"%string, VStr target); ("output_file"%string, VStr output_file)]
  | Scan_with_xml_output target output_file => [("target"%string, VStr target); ("output_file"%string, VStr output_file)]
  | Scan_with_all_formats target output_base => [("target"%string, VStr target); ("output_base"%string, VStr output_base)]
  | Nmap_help => []
  | Udp_scan target => [("target"%string, VStr target)]
  | Fin_scan target => [("target"%string, VStr target)]
  | Xmas_scan target => [("target"%string, VStr target)]
  | Null_scan target => [("target"%string, VStr target)]
  | Tcp_connect_scan target => [("target"%string, VStr target)]
  | Stealth_scan_no_ping target => [("target"%string, VStr target)]
  | Tcp_connect_scan_no_ping target => [("target"%string, VStr target)]
  | Udp_scan_no_ping target => [("target"%string, VStr target)]
  | Service_version_scan_no_ping target => [("target"%string, VStr target)]
  | Aggressive_scan_no_ping target => [("target"%string, VStr target)]
  | Port_scan_no_ping target ports => [("target"%string, VStr target); ("ports"%string, VStr ports)]
  | Fin_scan_no_ping target => [("target"%string, VStr target)]
  | Xmas_scan_no_ping target => [("target"%string, VStr target)]
  | Null_scan_no_ping target => [("target"%string, VStr target)]
  | Top_ports_scan_no_ping target num_ports => [("target"%string, VStr target); ("num_ports"%string, VInt num_ports)]
  end.


(** ** What a call hands to the executor *)

(** The request every catalog call makes: the binary name, then the
    arguments, no [shell] keyword, a deadline of 60 seconds. *)
Definition catalog_request (args : list str) : Request :=
  mkRequest (Argv (lit "nmap" :: args)) false true true 60.

(** The one request of the raw path. *)
Definition raw_request (command : str) : Request :=
  mkRequest (CommandLine command) true true true 120.

Definition first_request {A : Type} (p : Prog A) : option Request :=
  match p with
  | Spawn req _ => Some req
  | _ => None
  end.

(** The argument vector of a call, read off the program it runs: what
    follows the binary name in its first request. *)
Definition argument_vector (c : Call) : list str :=
  match first_request (dispatch c) with
  | Some (mkRequest (Argv (_ :: args)) _ _ _ _) => args
  | _ => []
  end.

(** The text the executor hands back for an argument vector. *)
Definition executor_text (env : Request -> Behaviour) (args : list str) : Result str :=
  outcome env (run_nmap_command args).

(** The prefix of every failure text of the catalog path. *)
Definition error_prefix : str := lit "Error running Nmap: ".


(** ** Argument slots *)

(** The literals the builders of the catalog place in a vector. *)
Definition fixed_flags : list str :=
  map lit
    ["-T4"; "-p"; "-O"; "-sS"; "-sV"; "-A"; "-sn"; "80"; "--script";
     "http-title"; "--traceroute"; "--script=vulscan/vulscan.nse";
     "--script-args"; "-sP"; "--top-ports"; "-iL"; "-v"; "-oN"; "-oX";
     "-oA"; "-h"; "-sU"; "-sF"; "-sX"; "-sN"; "-sT"; "-Pn"]%string.

Definition is_fixed_flag (a : str) : bool := existsb (str_eqb a) fixed_flags.

(** [OneSlotEach values argv]: the vector [argv] is made of fixed flags and,
    for each of [values], exactly one element that is that value's text and
    nothing else. *)
Inductive OneSlotEach : list Value -> list str -> Prop :=
| slots_done : OneSlotEach [] []
| slots_flag (f : str) (values : list Value) (argv : list str) :
    is_fixed_flag f = true ->
    OneSlotEach values argv ->
    OneSlotEach values (f :: argv)
| slots_value (v : Value) (values values' : list Value) (a : str) (argv : list str) :
    Add v values' values ->
    a = text v ->
    OneSlotEach values' argv ->
    OneSlotEach values (a :: argv).

(** The values of a call's parameters, in declaration order. *)
Definition supplied_values (c : Call) : list Value := map snd (arguments c).

(** The values that take a slot of their own, call by call: the vulnerability
    lookups give one slot to the target and one to the whole script argument
    they compose around the database name (and the template); the line
    limit takes none; [scan_multiple_hosts] gives one to each host of the
    list; every other call gives one to each parameter. *)
Definition slotted_values (c : Call) : list Value :=
  match c with
  | Vulscan_basic target database =>
      [VStr target; VStr (dquote ++ lit "vulscandb=" ++ database ++ dquote)]
  | Vulscan_output_limit target database _ =>
      [VStr target;
       VStr (dquote ++ lit "vulscandb=" ++ database
               ++ lit ",vulscanshowall=0,vulscanoutput='{id} - {title}'" ++ dquote)]
  | Vulscan_interactive target database =>
      [VStr target;
       VStr (dquote ++ lit "vulscandb=" ++ database
               ++ lit ",vulscaninteractive=1" ++ dquote)]
  | Vulscan_custom_output target database custom_template =>
      [VStr target;
       VStr (dquote ++ lit "vulscandb=" ++ database ++ lit ",vulscanoutput='"
               ++ custom_template ++ lit "'" ++ dquote)]
  | Scan_multiple_hosts hosts => map VStr (split hosts)
  | _ => supplied_values c
  end.

(** ** Lines *)

(** In the words of the specification: the first [n] lines of a text. *)
Definition first_lines (n : Z) (s : str) : list str :=
  firstn (Z.to_nat n) (splitlines s).

(** In the words of the specification: all lines except the last [k]. *)
Definition all_but_last_lines (k : Z) (s : str) : list str :=
  rev (skipn (Z.to_nat k) (rev (splitlines s))).

(** ** Reports of the raw path *)

Definition no_output_sentinel : str :=
  lit "Command executed successfully with no output.".

(** In the words of the specification: a stdout section if there is any
    stdout, then a stderr section if there is any stderr, then an exit-code
    line if the code is not zero. *)
Definition raw_sections (out err : str) (rc : Z) : str :=
  match out with [] => [] | _ => lit "STDOUT:" ++ newline ++ out ++ newline end
  ++ match err with [] => [] | _ => lit "STDERR:" ++ newline ++ err ++ newline end
  ++ (if Z.eq_dec rc 0 then [] else lit "Return Code: " ++ str_int rc ++ newline).

(** ** Predicates on texts *)

(** No code point of [s] is a line break of [str.splitlines]. *)
Definition no_linebreak (s : str) : bool :=
  forallb (fun ch => negb (is_linebreak ch)) s.

(** No code point of [s] is a separator of [str.split()]. *)
Definition no_space (s : str) : bool :=
  forallb (fun ch => negb (isspace ch)) s.

(** A host as [scan_multiple_hosts] passes it on: not empty, no space. *)
Definition is_host (h : str) : Prop := h <> [] /\ no_space h = true.

Definition space : str := lit " ".


Definition is_prefix_of (a b : str) : Prop := exists rest : str, b = a ++ rest.

(** The variant of a scan that skips host discovery, where the catalog has
    one. *)
Definition no_ping_variant (c : Call) : option Call :=
  match c with
  | Stealth_scan target => Some (Stealth_scan_no_ping target)
  | Tcp_connect_scan target => Some (Tcp_connect_scan_no_ping target)
  | Udp_scan target => Some (Udp_scan_no_ping target)
  | Service_version_detection target => Some (Service_version_scan_no_ping target)
  | Aggressive_scan target => Some (Aggressive_scan_no_ping target)
  | Port_scan target ports => Some (Port_scan_no_ping target ports)
  | Fin_scan target => Some (Fin_scan_no_ping target)
  | Xmas_scan target => Some (Xmas_scan_no_ping target)
  | Null_scan target => Some (Null_scan_no_ping target)
  | Scan_top_ports target num_ports => Some (Top_ports_scan_no_ping target num_ports)
  | _ => None
  end.

(** ** The interpreter's limit on printing integers *)

(** [sys.get_int_max_str_digits()]: the most decimal digits [str] prints for
    an [int], 4300 unless configured, 0 for no limit; a parameter of the
    development. *)
Variable int_max_str_digits : Z.

(** The number of decimal digits of an [int], its sign left out. *)
Definition decimal_digits (z : Z) : Z := Z.of_nat (List.length (str_int (Z.abs z))).

Definition exceeds_int_limit (z : Z) : bool :=
  (0 <? int_max_str_digits) && (int_max_str_digits <? decimal_digits z).

(** The message of the [ValueError] that [str] raises beyond the limit. *)
Definition int_limit_message : str :=
  lit "Exceeds the limit (" ++ str_int int_max_str_digits
    ++ lit " digits) for integer string conversion; use sys.set_int_max_str_digits() to increase the limit".

(** [str(n)] as the interpreter evaluates it: [str_int n], or a [ValueError]
    when [n] has more digits than the limit. *)
Definition py_str (z : Z) : Prog str :=
  if exceeds_int_limit z
  then Raise (OtherException int_limit_message)
  else Ret (str_int z).

(** A call as the interpreter runs it. The two top-ports scans evaluate
    [str(num_ports)] while they build the list, before [run_nmap_command]
    and its [try] are entered; the other calls run as [dispatch] has them. *)
Definition invoke (c : Call) : Prog str :=
  match c with
  | Scan_top_ports target num_ports =>
      (number <- py_str num_ports ;;
       run_nmap_command [lit "--top-ports"; number; target])%prog
  | Top_ports_scan_no_ping target num_ports =>
      (number <- py_str num_ports ;;
       run_nmap_command [lit "--top-ports"; number; lit "-Pn"; target])%prog
  | _ => dispatch c
  end.

(** The integer of the call, when it has one that is printed, is within
    the limit. *)
Definition within_int_limit (c : Call) : bool :=
  match c with
  | Scan_top_ports _ num_ports => negb (exceeds_int_limit num_ports)
  | Top_ports_scan_no_ping _ num_ports => negb (exceeds_int_limit num_ports)
  | _ => true
  end.

(** ** Basic facts about running programs *)

Lemma run_bind {A B : Type} (env : Request -> Behaviour) (p : Prog A) (f : A -> Prog B) :
  run env (bind p f) =
  match run env p with
  | (reqs, Returned a) => let (reqs', r) := run env (f a) in (reqs ++ reqs', r)
  | (reqs, Propagated e) => (reqs, Propagated e)
  end.
Proof.
  induction p as [a | e | req k IH]; simpl.
  - destruct (run env (f a)); reflexivity.
  - reflexivity.
  - rewrite IH. destruct (run env (k (env req))) as [reqs [a | e]].
    + destruct (run env (f a)); reflexivity.
    + reflexivity.
Qed.

Lemma run_try_except {A : Type} (env : Request -> Behaviour) (p : Prog A)
    (h : PyException -> Prog A) :
  run env (try_except p h) =
  match run env p with
  | (reqs, Returned a) => (reqs, Returned a)
  | (reqs, Propagated e) => let (reqs', r) := run env (h e) in (reqs ++ reqs', r)
  end.
Proof.
  induction p as [a | e | req k IH]; simpl.
  - reflexivity.
  - destruct (run env (h e)); reflexivity.
  - rewrite IH. destruct (run env (k (env req))) as [reqs [a | e]].
    + reflexivity.
    + destruct (run env (h e)); reflexivity.
Qed.

(** The executor makes exactly one request and always returns a text. *)
Lemma run_run_nmap_command (env : Request -> Behaviour) (args : list str) :
  run env (run_nmap_command args) =
  ([catalog_request args],
   Returned
     match env (catalog_request args) with
     | Exits out _ _ => out
     | Overruns po pe =>
         error_prefix ++ str_exception (TimeoutExpired (Argv (lit "nmap" :: args)) 60 po pe)
     | Fails message => error_prefix ++ message
     end).
Proof.
  unfold run_nmap_command, subprocess_run, catalog_request. simpl.
  destruct (env _); reflexivity.
Qed.

Lemma executor_text_eq (env : Request -> Behaviour) (args : list str) :
  executor_text env args =
  Returned
    match env (catalog_request args) with
    | Exits out _ _ => out
    | Overruns po pe =>
        error_prefix ++ str_exception (TimeoutExpired (Argv (lit "nmap" :: args)) 60 po pe)
    | Fails message => error_prefix ++ message
    end.
Proof. unfold executor_text, outcome. rewrite run_run_nmap_command. reflexivity. Qed.

(** Every catalog call is the executor on the call's argument vector,
    followed by the line limit for [vulscan_output_limit] and by nothing for
    the others. *)
Lemma run_dispatch (env : Request -> Behaviour) (c : Call) :
  run env (dispatch c) =
  ([catalog_request (argument_vector c)],
   match executor_text env (argument_vector c), c with
   | Returned full_output, Vulscan_output_limit _ _ limit =>
       Returned (join newline (slice_to (splitlines full_output) limit))
   | r, _ => r
   end).
Proof.
  destruct c; try (rewrite executor_text_eq; apply run_run_nmap_command).
  rewrite executor_text_eq. unfold dispatch, vulscan_output_limit.
  rewrite run_bind, run_run_nmap_command. reflexivity.
Qed.


Lemma requests_dispatch (env : Request -> Behaviour) (c : Call) :
  requests env (dispatch c) = [catalog_request (argument_vector c)].
Proof. unfold requests. rewrite run_dispatch. reflexivity. Qed.

Lemma outcome_dispatch (env : Request -> Behaviour) (c : Call) :
  outcome env (dispatch c) =
  match executor_text env (argument_vector c), c with
  | Returned full_output, Vulscan_output_limit _ _ limit =>
      Returned (join newline (slice_to (splitlines full_output) limit))
  | r, _ => r
  end.
Proof. unfold outcome. rewrite run_dispatch. reflexivity. Qed.

(** The raw path makes exactly one request and always returns a text. *)
Lemma run_execute_custom_nmap_command (env : Request -> Behaviour) (command : str) :
  exists s : str,
    run env (execute_custom_nmap_command command) = ([raw_request command], Returned s).
Proof.
  unfold execute_custom_nmap_command, subprocess_run, raw_request. simpl.
  destruct (env _); simpl; eexists; reflexivity.
Qed.

(** ** The execution discipline *)


(** C9. A catalog call's requests and result are a function of the call and
    of what the process does with the call's one request: two runs in which
    the process behaves alike make the same request, with the same argument
    vector, and give the same result. *)
Theorem same_response_same_result (env1 env2 : Request -> Behaviour) (c : Call) :
  env1 (catalog_request (argument_vector c)) = env2 (catalog_request (argument_vector c)) ->
  requests env1 (dispatch c) = requests env2 (dispatch c)
  /\ outcome env1 (dispatch c) = outcome env2 (dispatch c).
Proof.
  intro Henv. split.
  - rewrite !requests_dispatch. reflexivity.
  - rewrite !outcome_dispatch, !executor_text_eq, Henv. reflexivity.
Qed.


(** ** Argument vectors *)

Lemma OneSlotEach_value_in (values : list Value) (argv : list str) :
  OneSlotEach values argv ->
  forall v : Value, In v values -> In (text v) argv.
Proof.
  induction 1 as [| f values argv _ _ IH | v values values' a argv Hadd Ha _ IH];
    intros x Hx.
  - destruct Hx.
  - right. apply IH, Hx.
  - apply (Add_in Hadd) in Hx. destruct Hx as [Hx | Hx].
    + left. subst. reflexivity.
    + right. apply IH, Hx.
Qed.

Lemma OneSlotEach_all_values (l : list str) : OneSlotEach (map VStr l) l.
Proof.
  induction l as [| a l IH]; simpl.
  - apply slots_done.
  - apply (slots_value (VStr a) (VStr a :: map VStr l) (map VStr l)).
    + apply Add_head.
    + reflexivity.
    + exact IH.
Qed.

Ltac fill_slots :=
  repeat first
    [ apply slots_done
    | apply slots_flag; [vm_compute; reflexivity |]
    | eapply slots_value; [apply Add_head | reflexivity |]
    | eapply slots_value; [apply Add_cons; apply Add_head | reflexivity |]
    | eapply slots_value; [apply Add_cons; apply Add_cons; apply Add_head | reflexivity |] ].

(** C1, amended. The vector a catalog call hands to the executor is made of
    fixed flags and exactly one element for each slotted value: each
    parameter for the plain calls, each host of the list for
    [scan_multiple_hosts], and for the vulnerability lookups the target and
    the one script argument composed around the database name (and the
    template), the line limit taking no element. *)
Theorem slotted_values_have_one_element_each (env : Request -> Behaviour) (c : Call) :
  requests env (dispatch c) = [catalog_request (argument_vector c)]
  /\ OneSlotEach (slotted_values c) (argument_vector c).
Proof.
  split; [apply requests_dispatch |].
  destruct c;
    try (cbv [slotted_values supplied_values arguments map snd];
         cbv [argument_vector dispatch first_request];
         cbn [app]; fill_slots; fail).
  apply OneSlotEach_all_values.
Qed.

(** ** Failures *)

Lemma splitlines_from_head (s cur : str) :
  cur <> [] ->
  exists (x : str) (rest : list str), splitlines_from cur s = (rev cur ++ x) :: rest.
Proof.
  revert cur. induction s as [| ch s IH]; intros cur Hcur; simpl.
  - destruct cur as [| c0 cur']; [contradiction |].
    exists [], []. rewrite app_nil_r. reflexivity.
  - destruct (is_linebreak ch).
    + exists []. eexists. rewrite app_nil_r. reflexivity.
    + destruct (IH (ch :: cur)) as [x [rest Hx]]; [discriminate |].
      exists (ch :: x), rest. rewrite Hx. simpl. rewrite <- app_assoc. reflexivity.
Qed.

Lemma splitlines_from_app (p s cur : str) :
  forallb (fun ch => negb (is_linebreak ch)) p = true ->
  splitlines_from cur (p ++ s) = splitlines_from (rev p ++ cur) s.
Proof.
  revert cur. induction p as [| ch p IH]; intros cur Hp; simpl in *.
  - reflexivity.
  - apply andb_true_iff in Hp. destruct Hp as [Hch Hp].
    apply negb_true_iff in Hch. rewrite Hch, (IH _ Hp), <- app_assoc. reflexivity.
Qed.

(** The first line of a failure text starts with the whole error prefix. *)
Lemma splitlines_error_prefix (message : str) :
  exists (x : str) (rest : list str),
    splitlines (error_prefix ++ message) = (error_prefix ++ x) :: rest.
Proof.
  unfold splitlines. rewrite splitlines_from_app by reflexivity.
  destruct (splitlines_from_head message (rev error_prefix ++ [])) as [x [rest Hx]].
  - discriminate.
  - exists x, rest. rewrite Hx, app_nil_r, rev_involutive. reflexivity.
Qed.

Lemma slice_to_keeps_head {A : Type} (a : A) (l : list A) (stop : Z) :
  1 <= stop -> exists l', slice_to (a :: l) stop = a :: l'.
Proof.
  intro Hstop. unfold slice_to.
  destruct (stop <? 0) eqn:Hneg; [apply Z.ltb_lt in Hneg; lia |].
  remember (Z.to_nat (Z.min stop (Z.of_nat (List.length (a :: l))))) as n eqn:Hn.
  destruct n as [| n].
  - simpl List.length in Hn. lia.
  - simpl. eexists. reflexivity.
Qed.

Lemma join_head (sep x : str) (l : list str) :
  exists rest : str, join sep (x :: l) = x ++ rest.
Proof.
  destruct l as [| y l]; simpl.
  - exists []. rewrite app_nil_r. reflexivity.
  - eexists. reflexivity.
Qed.

(** C3, amended. When the process of a catalog call fails, by overrunning
    the deadline or by any other fault, the executor's text is the error
    prefix followed by the exception's message, hence never empty. Every
    call but the line-limited lookup returns exactly that text; the
    line-limited lookup returns its first [limit] lines by the slice rule,
    which start with the error prefix whenever [limit] is at least 1. *)
Theorem failure_text_states_the_error
    (env : Request -> Behaviour) (c : Call) (e : PyException) :
  outcome env (subprocess_run (Argv (lit "nmap" :: argument_vector c)) false 60)
  = Propagated e ->
  let failure := error_prefix ++ str_exception e in
  executor_text env (argument_vector c) = Returned failure
  /\ failure <> []
  /\ match c with
     | Vulscan_output_limit _ _ limit =>
         outcome env (dispatch c)
         = Returned (join newline (slice_to (splitlines failure) limit))
         /\ (1 <= limit ->
             exists rest : str, outcome env (dispatch c) = Returned (error_prefix ++ rest))
     | _ => outcome env (dispatch c) = Returned failure
     end.
Proof.
  intros Hraise failure.
  assert (Htext : executor_text env (argument_vector c) = Returned failure).
  { rewrite executor_text_eq. unfold outcome, subprocess_run in Hraise.
    simpl in Hraise. fold (catalog_request (argument_vector c)) in Hraise.
    unfold failure.
    destruct (env (catalog_request (argument_vector c))); simpl in Hraise;
      inversion Hraise; reflexivity. }
  split; [exact Htext |]. split; [discriminate |].
  destruct c; try (rewrite outcome_dispatch, Htext; reflexivity).
  rewrite outcome_dispatch, Htext. cbv beta iota zeta. split; [reflexivity |].
  intro Hlimit. unfold failure.
  destruct (splitlines_error_prefix (str_exception e)) as [x [rest Hx]].
  rewrite Hx.
  destruct (slice_to_keeps_head (error_prefix ++ x) rest limit Hlimit) as [l' Hl'].
  rewrite Hl'.
  destruct (join_head newline (error_prefix ++ x) l') as [tail Htail].
  rewrite Htail, <- app_assoc. eexists. reflexivity.
Qed.


(** The first lines of a failure text, one at least, start with the error
    prefix. *)
Lemma limited_failure_text (message : str) (limit : Z) :
  1 <= limit ->
  exists rest : str,
    join newline (slice_to (splitlines (error_prefix ++ message)) limit)
    = error_prefix ++ rest.
Proof.
  intro Hlimit.
  destruct (splitlines_error_prefix message) as [x [lines Hx]]. rewrite Hx.
  destruct (slice_to_keeps_head (error_prefix ++ x) lines limit Hlimit) as [l' Hl'].
  rewrite Hl'.
  destruct (join_head newline (error_prefix ++ x) l') as [tail Htail].
  rewrite Htail, <- app_assoc. eexists. reflexivity.
Qed.

(** C4, amended. Every catalog call runs its process under a deadline of 60
    seconds. When the process overruns it, every call but the line-limited
    lookup returns the error prefix followed by the timeout message of the
    request, which names the command and the 60 seconds; the line-limited
    lookup returns the first [limit] lines of that text by the slice rule,
    which start with the error prefix whenever [limit] is at least 1. No
    result depends on the output captured before the deadline. *)
Theorem timeout_text_of_catalog_calls
    (env : Request -> Behaviour) (c : Call) (po pe : option str) :
  env (catalog_request (argument_vector c)) = Overruns po pe ->
  let timeout_text :=
    error_prefix ++ lit "Command '"
      ++ str_command (Argv (lit "nmap" :: argument_vector c))
      ++ lit "' timed out after 60 seconds" in
  Forall (fun req => req_timeout req = 60) (requests env (dispatch c))
  /\ match c with
     | Vulscan_output_limit _ _ limit =>
         outcome env (dispatch c)
         = Returned (join newline (slice_to (splitlines timeout_text) limit))
         /\ (1 <= limit ->
             exists rest : str, outcome env (dispatch c) = Returned (error_prefix ++ rest))
     | _ => outcome env (dispatch c) = Returned timeout_text
     end
  /\ (forall (env' : Request -> Behaviour) (po' pe' : option str),
         env' (catalog_request (argument_vector c)) = Overruns po' pe' ->
         outcome env' (dispatch c) = outcome env (dispatch c)).
Proof.
  intros Henv timeout_text.
  assert (Htext : executor_text env (argument_vector c) = Returned timeout_text).
  { rewrite executor_text_eq, Henv. reflexivity. }
  split; [rewrite requests_dispatch; repeat constructor |]. split.
  - destruct c; try (rewrite outcome_dispatch, Htext; reflexivity).
    rewrite outcome_dispatch, Htext. cbv beta iota zeta. split; [reflexivity |].
    intro Hlimit. unfold timeout_text.
    destruct (limited_failure_text
                (lit "Command '"
                   ++ str_command
                        (Argv (lit "nmap"
                                 :: argument_vector (Vulscan_output_limit target database limit)))
                   ++ lit "' timed out after 60 seconds") limit Hlimit) as [rest Hrest].
    rewrite Hrest. exists rest. reflexivity.
  - intros env' po' pe' Henv'.
    rewrite !outcome_dispatch, !executor_text_eq, Henv, Henv'. reflexivity.
Qed.

(** C5, amended. When the process of a catalog call ends, whatever its exit
    code and its stderr, the call returns a text and not an error: every
    call but the line-limited lookup returns the captured stdout unchanged;
    the line-limited lookup returns the first [limit] lines of the stdout by
    the slice rule, joined by newlines. The result is the same for every
    exit code and every stderr. *)
Theorem completed_process_gives_its_stdout
    (env : Request -> Behaviour) (c : Call) (out err : str) (rc : Z) :
  env (catalog_request (argument_vector c)) = Exits out err rc ->
  outcome env (dispatch c)
  = match c with
    | Vulscan_output_limit _ _ limit =>
        Returned (join newline (slice_to (splitlines out) limit))
    | _ => Returned out
    end
  /\ (forall (env' : Request -> Behaviour) (err' : str) (rc' : Z),
         env' (catalog_request (argument_vector c)) = Exits out err' rc' ->
         outcome env' (dispatch c) = outcome env (dispatch c)).
Proof.
  intro Henv. split.
  - rewrite outcome_dispatch, executor_text_eq, Henv. destruct c; reflexivity.
  - intros env' err' rc' Henv'.
    rewrite !outcome_dispatch, !executor_text_eq, Henv, Henv'. reflexivity.
Qed.

Lemma invoke_within_limit (c : Call) :
  within_int_limit c = true -> invoke c = dispatch c.
Proof.
  destruct c; try reflexivity; simpl; intro Hlimit;
    apply negb_true_iff in Hlimit;
    unfold py_str, dispatch, scan_top_ports, top_ports_scan_no_ping;
    rewrite Hlimit; reflexivity.
Qed.

Lemma invoke_beyond_limit (env : Request -> Behaviour) (c : Call) :
  within_int_limit c = false ->
  run env (invoke c) = ([], Propagated (OtherException int_limit_message)).
Proof.
  destruct c; try discriminate; simpl; intro Hlimit;
    apply negb_false_iff in Hlimit; unfold py_str; rewrite Hlimit; reflexivity.
Qed.

(** C6, amended. A raw call always returns a text. A catalog call returns a
    text and propagates no exception as long as the integer it prints, if
    any, is within the interpreter's limit; a top-ports scan whose number
    has more digits than the limit raises the [ValueError] of [str] before
    the executor is entered, and starts no process. A fault of process
    creation or execution becomes the error prefix followed by the fault's
    own message, which every catalog call but the line-limited lookup
    returns as it is and the line-limited lookup cuts to its first [limit]
    lines; on the raw path it becomes its own prefix followed by the
    message, and an overrun of the raw deadline the fixed timeout text. *)
Theorem faults_become_text_unless_str_raises (env : Request -> Behaviour) :
  (forall c : Call,
      within_int_limit c = true ->
      invoke c = dispatch c
      /\ exists s : str, outcome env (invoke c) = Returned s)
  /\ (forall (c : Call) (message : str),
         within_int_limit c = true ->
         env (catalog_request (argument_vector c)) = Fails message ->
         outcome env (invoke c)
         = Returned
             match c with
             | Vulscan_output_limit _ _ limit =>
                 join newline
                   (slice_to (splitlines (lit "Error running Nmap: " ++ message)) limit)
             | _ => lit "Error running Nmap: " ++ message
             end)
  /\ (forall c : Call,
         within_int_limit c = false ->
         run env (invoke c) = ([], Propagated (OtherException int_limit_message)))
  /\ (forall command : str,
         exists s : str, outcome env (execute_custom_nmap_command command) = Returned s)
  /\ (forall command message : str,
         env (raw_request command) = Fails message ->
         outcome env (execute_custom_nmap_command command)
         = Returned (lit "Error executing command: " ++ message))
  /\ (forall (command : str) (po pe : option str),
         env (raw_request command) = Overruns po pe ->
         outcome env (execute_custom_nmap_command command)
         = Returned (lit "Error: Command timed out after 120 seconds")).
Proof.
  split; [| split; [| split; [| split; [| split]]]].
  - intros c Hlimit. split; [apply invoke_within_limit, Hlimit |].
    rewrite (invoke_within_limit c Hlimit), outcome_dispatch, executor_text_eq.
    destruct c; eexists; reflexivity.
  - intros c message Hlimit Henv.
    rewrite (invoke_within_limit c Hlimit), outcome_dispatch, executor_text_eq, Henv.
    destruct c; reflexivity.
  - intros c Hlimit. apply invoke_beyond_limit, Hlimit.
  - intro command. unfold outcome.
    destruct (run_execute_custom_nmap_command env command) as [s Hs].
    rewrite Hs. exists s. reflexivity.
  - intros command message Henv.
    unfold outcome, execute_custom_nmap_command, subprocess_run. simpl.
    fold (raw_request command). rewrite Henv. reflexivity.
  - intros command po pe Henv.
    unfold outcome, execute_custom_nmap_command, subprocess_run. simpl.
    fold (raw_request command). rewrite Henv. reflexivity.
Qed.

(** ** The line limit *)

Lemma slice_to_nonnegative {A : Type} (l : list A) (stop : Z) :
  0 <= stop -> slice_to l stop = firstn (Z.to_nat stop) l.
Proof.
  intro Hstop. unfold slice_to.
  destruct (stop <? 0) eqn:Hneg; [apply Z.ltb_lt in Hneg; lia |].
  destruct (Z.le_gt_cases stop (Z.of_nat (List.length l))) as [Hle | Hgt].
  - rewrite Z.min_l by exact Hle. reflexivity.
  - rewrite Z.min_r by lia. rewrite Nat2Z.id, firstn_all.
    symmetry. apply firstn_all2. lia.
Qed.

Lemma slice_to_whole {A : Type} (l : list A) (stop : Z) :
  Z.of_nat (List.length l) <= stop -> slice_to l stop = l.
Proof.
  intro Hlen. rewrite slice_to_nonnegative by lia. apply firstn_all2. lia.
Qed.

Lemma slice_to_negative {A : Type} (l : list A) (stop : Z) :
  stop < 0 -> slice_to l stop = rev (skipn (Z.to_nat (- stop)) (rev l)).
Proof.
  intro Hstop. unfold slice_to.
  apply Z.ltb_lt in Hstop. rewrite Hstop. apply Z.ltb_lt in Hstop.
  rewrite skipn_rev, rev_involutive. f_equal. lia.
Qed.

Lemma executor_returns (env : Request -> Behaviour) (args : list str) :
  exists full_output : str, executor_text env args = Returned full_output.
Proof. rewrite executor_text_eq. eexists. reflexivity. Qed.

(** C7, amended. For every text the executor hands back and every limit
    that is not negative, the line-limited lookup returns the first [limit]
    lines of that text, in order, joined by newlines; the limit is applied
    to the executor's text and is no part of the argument vector. *)
Theorem line_limit_keeps_first_lines
    (env : Request -> Behaviour) (target database : str) (limit : Z) :
  0 <= limit ->
  exists full_output : str,
    executor_text env (argument_vector (Vulscan_output_limit target database limit))
    = Returned full_output
    /\ outcome env (dispatch (Vulscan_output_limit target database limit))
       = Returned (join newline (first_lines limit full_output))
    /\ (forall limit' : Z,
           argument_vector (Vulscan_output_limit target database limit)
           = argument_vector (Vulscan_output_limit target database limit')).
Proof.
  intro Hlimit.
  destruct (executor_returns env
              (argument_vector (Vulscan_output_limit target database limit)))
    as [full_output Hfull].
  exists full_output. split; [exact Hfull |]. split.
  - rewrite outcome_dispatch, Hfull. cbv beta iota zeta.
    rewrite slice_to_nonnegative by exact Hlimit. reflexivity.
  - intro limit'. reflexivity.
Qed.

(** C10, amended. The line-limited lookup follows the slice rule and raises
    for no limit: when the executor's text has at most [limit] lines, all
    its lines are returned, joined by newlines; when [limit] is 0 the result
    is the empty string; when [limit] is negative the result is all lines
    but the last [- limit], joined by newlines. *)
Theorem line_limit_follows_slice_rule
    (env : Request -> Behaviour) (target database full_output : str) (limit : Z) :
  executor_text env (argument_vector (Vulscan_output_limit target database limit))
  = Returned full_output ->
  (exists result : str,
      outcome env (dispatch (Vulscan_output_limit target database limit))
      = Returned result)
  /\ (Z.of_nat (List.length (splitlines full_output)) <= limit ->
      outcome env (dispatch (Vulscan_output_limit target database limit))
      = Returned (join newline (splitlines full_output)))
  /\ (limit = 0 ->
      outcome env (dispatch (Vulscan_output_limit target database limit))
      = Returned [])
  /\ (limit < 0 ->
      outcome env (dispatch (Vulscan_output_limit target database limit))
      = Returned (join newline (all_but_last_lines (- limit) full_output))).
Proof.
  intro Hfull. rewrite outcome_dispatch, Hfull. cbv beta iota zeta.
  split; [eexists; reflexivity |]. split; [| split].
  - intro Hlen. rewrite slice_to_whole by exact Hlen. reflexivity.
  - intro Hzero. rewrite slice_to_nonnegative by lia. subst limit. reflexivity.
  - intro Hneg. rewrite slice_to_negative by exact Hneg. reflexivity.
Qed.

(** ** The raw path's report *)

(** C8. When the command of a raw call ends, the returned text is the
    stdout section if stdout is not empty, then the stderr section if stderr
    is not empty, then the exit-code line if the code is not zero; the fixed
    sentinel is returned exactly when all three are absent, and the sections
    never read as the sentinel; a command that ends with a non-zero code and
    no output gets the exit-code line. *)
Theorem raw_report_sections
    (env : Request -> Behaviour) (command out err : str) (rc : Z) :
  env (raw_request command) = Exits out err rc ->
  (out = [] /\ err = [] /\ rc = 0 ->
   outcome env (execute_custom_nmap_command command) = Returned no_output_sentinel)
  /\ (~ (out = [] /\ err = [] /\ rc = 0) ->
      outcome env (execute_custom_nmap_command command)
      = Returned (raw_sections out err rc)
      /\ raw_sections out err rc <> no_output_sentinel)
  /\ (out = [] -> err = [] -> rc <> 0 ->
      outcome env (execute_custom_nmap_command command)
      = Returned (lit "Return Code: " ++ str_int rc ++ newline)).
Proof.
  intro Henv.
  assert (Hout : outcome env (execute_custom_nmap_command command)
                 = Returned (if truthy (raw_sections out err rc)
                             then raw_sections out err rc
                             else no_output_sentinel)).
  { unfold outcome, execute_custom_nmap_command, subprocess_run. simpl.
    fold (raw_request command). rewrite Henv. simpl.
    unfold raw_sections.
    destruct out as [| o out']; destruct err as [| e err'];
      destruct (Z.eq_dec rc 0) as [Hrc | Hrc];
      try (apply Z.eqb_eq in Hrc); try (apply Z.eqb_neq in Hrc);
      rewrite Hrc; simpl; repeat (rewrite <- app_assoc; simpl);
      rewrite ?app_nil_r; reflexivity. }
  rewrite Hout. clear Hout Henv. split; [| split].
  - intros [Ho [He Hrc]]. subst. reflexivity.
  - intro Hsome.
    assert (Hhead : exists (ch : N) (tail : str),
               raw_sections out err rc = ch :: tail /\ ch <> 67%N).
    { unfold raw_sections.
      destruct out as [| o out'].
      - destruct err as [| e err'].
        + destruct (Z.eq_dec rc 0) as [Hrc | Hrc].
          * exfalso. apply Hsome. auto.
          * eexists. eexists. split; [reflexivity | discriminate].
        + eexists. eexists. split; [reflexivity | discriminate].
      - eexists. eexists. split; [reflexivity | discriminate]. }
    destruct Hhead as [ch [tail [Hsec Hch]]]. rewrite Hsec. simpl.
    split; [reflexivity |].
    unfold no_output_sentinel. intro Heq. apply Hch.
    injection Heq as Heq _. exact Heq.
  - intros Ho He Hrc. subst out err. unfold raw_sections.
    destruct (Z.eq_dec rc 0) as [Hz | Hz]; [contradiction |]. reflexivity.
Qed.

(** ** Host lists *)

Lemma no_space_rev (s : str) : no_space s = true -> no_space (rev s) = true.
Proof.
  unfold no_space. rewrite !forallb_forall. intros H x Hx.
  apply H, in_rev, Hx.
Qed.

Lemma split_from_hosts (s cur : str) :
  no_space cur = true -> Forall is_host (split_from cur s).
Proof.
  revert cur. induction s as [| ch s IH]; intros cur Hcur; simpl.
  - destruct cur as [| c0 cur']; [constructor |].
    constructor; [| constructor]. split.
    + simpl. intro H. apply app_eq_nil in H. destruct H as [_ H]. discriminate H.
    + apply no_space_rev, Hcur.
  - destruct (isspace ch) eqn:Hch.
    + destruct cur as [| c0 cur'].
      * apply IH. reflexivity.
      * constructor; [| apply IH; reflexivity]. split.
        -- simpl. intro H. apply app_eq_nil in H. destruct H as [_ H]. discriminate H.
        -- apply no_space_rev, Hcur.
    + apply IH. simpl. rewrite Hch. exact Hcur.
Qed.

Lemma split_from_concat (s cur : str) :
  List.concat (split_from cur s) = rev cur ++ filter (fun ch => negb (isspace ch)) s.
Proof.
  revert cur. induction s as [| ch s IH]; intros cur; simpl.
  - destruct cur as [| c0 cur']; [reflexivity |].
    simpl. rewrite !app_nil_r. reflexivity.
  - destruct (isspace ch) eqn:Hch; simpl.
    + destruct cur as [| c0 cur'].
      * apply IH.
      * simpl. rewrite (IH []). reflexivity.
    + rewrite IH. simpl. rewrite <- app_assoc. reflexivity.
Qed.

Lemma split_from_nil (s cur : str) :
  split_from cur s = [] <-> cur = [] /\ forallb isspace s = true.
Proof.
  revert cur. induction s as [| ch s IH]; intros cur; simpl.
  - destruct cur; split; intro H; try discriminate H; auto.
    destruct H as [H _]. discriminate H.
  - destruct (isspace ch) eqn:Hch; simpl.
    + destruct cur as [| c0 cur'].
      * apply IH.
      * split; intro H; [discriminate H | destruct H as [H _]; discriminate H].
    + rewrite IH. split; intros [H1 H2]; discriminate.
Qed.

Lemma split_from_app (h s cur : str) :
  no_space h = true -> split_from cur (h ++ s) = split_from (rev h ++ cur) s.
Proof.
  revert cur. induction h as [| ch h IH]; intros cur Hh; simpl in *.
  - reflexivity.
  - apply andb_true_iff in Hh. destruct Hh as [Hch Hh].
    apply negb_true_iff in Hch. rewrite Hch, (IH _ Hh), <- app_assoc. reflexivity.
Qed.

(** A host followed by the end of the text, or by a space and more text. *)
Lemma split_host_then (h s : str) :
  is_host h ->
  split_from [] (h ++ []) = [h]
  /\ split_from [] (h ++ space ++ s) = h :: split_from [] s.
Proof.
  intros [Hne Hns]. rewrite !split_from_app by exact Hns. rewrite app_nil_r.
  assert (Hrev : rev h <> []).
  { intro H. apply Hne. rewrite <- (rev_involutive h), H. reflexivity. }
  destruct (rev h) as [| c0 r] eqn:Hr; [contradiction |].
  split; simpl; rewrite <- (rev_involutive h), Hr; reflexivity.
Qed.

Lemma split_join_hosts (hs : list str) :
  Forall is_host hs -> split (join space hs) = hs.
Proof.
  unfold split. induction 1 as [| h hs Hh Hhs IH]; [reflexivity |].
  destruct hs as [| h' hs'].
  - simpl. rewrite <- (app_nil_r h) at 1. apply (split_host_then h []), Hh.
  - change (join space (h :: h' :: hs')) with (h ++ space ++ join space (h' :: hs')).
    rewrite (proj2 (split_host_then h _ Hh)), IH. reflexivity.
Qed.

(** X1. Every element of the vector [scan_multiple_hosts] builds is a host:
    it is not empty and holds no whitespace. *)
Theorem host_list_elements_are_hosts (hosts : str) :
  Forall is_host (argument_vector (Scan_multiple_hosts hosts)).
Proof. apply split_from_hosts. reflexivity. Qed.

(** X2. The elements of the vector [scan_multiple_hosts] builds, put end to
    end, are the non-whitespace code points of [hosts] in order; the vector
    is empty exactly when [hosts] is empty or all whitespace. *)
Theorem host_list_keeps_what_is_not_space (hosts : str) :
  List.concat (argument_vector (Scan_multiple_hosts hosts))
  = filter (fun ch => negb (isspace ch)) hosts
  /\ (argument_vector (Scan_multiple_hosts hosts) = []
      <-> forallb isspace hosts = true).
Proof.
  split.
  - apply (split_from_concat hosts []).
  - change (argument_vector (Scan_multiple_hosts hosts)) with (split_from [] hosts).
    rewrite split_from_nil. tauto.
Qed.

(** X3. Hosts joined by single spaces come back, one element each and in
    order, as the vector of [scan_multiple_hosts]. *)
Theorem host_list_round_trip (hs : list str) :
  Forall is_host hs ->
  argument_vector (Scan_multiple_hosts (join space hs)) = hs.
Proof. apply split_join_hosts. Qed.

(** X4. On one host, [scan_multiple_hosts] makes the request of
    [single_host_scan] and of [scan_ip_range] and gives their result. *)
Theorem one_host_list_is_a_single_host_scan (env : Request -> Behaviour) (host : str) :
  is_host host ->
  run env (dispatch (Scan_multiple_hosts host)) = run env (dispatch (Single_host_scan host))
  /\ run env (dispatch (Scan_multiple_hosts host)) = run env (dispatch (Scan_ip_range host)).
Proof.
  intro Hhost.
  assert (Hsplit : split host = [host]).
  { apply (split_join_hosts [host]). constructor; [exact Hhost | constructor]. }
  unfold dispatch, scan_multiple_hosts, single_host_scan, scan_ip_range.
  rewrite Hsplit. split; reflexivity.
Qed.

(** ** Lines of the limited lookup *)

Lemma no_linebreak_rev (s : str) : no_linebreak s = true -> no_linebreak (rev s) = true.
Proof.
  unfold no_linebreak. rewrite !forallb_forall. intros H x Hx.
  apply H, in_rev, Hx.
Qed.

Lemma splitlines_from_no_linebreak (n : nat) (s cur : str) :
  (List.length s <= n)%nat ->
  no_linebreak cur = true ->
  Forall (fun line => no_linebreak line = true) (splitlines_from cur s).
Proof.
  revert s cur. induction n as [| n IH]; intros s cur Hlen Hcur;
    destruct s as [| ch s]; simpl in *; try lia.
  - destruct cur as [| c0 cur']; repeat constructor.
    apply (no_linebreak_rev (c0 :: cur')), Hcur.
  - destruct cur as [| c0 cur']; repeat constructor.
    apply (no_linebreak_rev (c0 :: cur')), Hcur.
  - destruct (is_linebreak ch) eqn:Hch.
    + constructor; [apply no_linebreak_rev, Hcur |].
      destruct s as [| d s'].
      * constructor.
      * destruct (N.eqb ch CR && N.eqb d LF).
        -- apply IH; [simpl in Hlen; lia | reflexivity].
        -- apply IH; [simpl in *; lia | reflexivity].
    + apply IH; [lia |]. simpl. rewrite Hch. exact Hcur.
Qed.

Lemma splitlines_no_linebreak (s : str) :
  Forall (fun line => no_linebreak line = true) (splitlines s).
Proof. apply (splitlines_from_no_linebreak (List.length s)); [lia | reflexivity]. Qed.

Lemma Forall_firstn_keeps {A : Type} (P : A -> Prop) (k : nat) (l : list A) :
  Forall P l -> Forall P (firstn k l).
Proof.
  revert l. induction k as [| k IH]; intros l Hl; simpl; [constructor |].
  destruct Hl as [| a l Ha Hl]; constructor; [exact Ha | apply IH, Hl].
Qed.

Lemma Forall_slice_to {A : Type} (P : A -> Prop) (l : list A) (stop : Z) :
  Forall P l -> Forall P (slice_to l stop).
Proof. intro Hl. unfold slice_to. apply Forall_firstn_keeps, Hl. Qed.

Lemma length_slice_to {A : Type} (l : list A) (stop : Z) :
  0 <= stop -> Z.of_nat (List.length (slice_to l stop)) <= stop.
Proof.
  intro Hstop. rewrite slice_to_nonnegative by exact Hstop.
  pose proof (firstn_le_length (Z.to_nat stop) l). lia.
Qed.

Lemma firstn_le_prefix {A : Type} (a b : nat) (l : list A) :
  (a <= b)%nat -> exists t : list A, firstn b l = firstn a l ++ t.
Proof.
  intro Hab. exists (skipn a (firstn b l)).
  rewrite <- (firstn_skipn a (firstn b l)) at 1.
  rewrite firstn_firstn, Nat.min_l by exact Hab. reflexivity.
Qed.

Lemma slice_to_prefix {A : Type} (l : list A) (m n : Z) :
  0 <= m <= n \/ m <= n < 0 ->
  exists t : list A, slice_to l n = slice_to l m ++ t.
Proof.
  intros [[Hm Hmn] | [Hmn Hn]]; unfold slice_to.
  - destruct (m <? 0) eqn:Em; [apply Z.ltb_lt in Em; lia |].
    destruct (n <? 0) eqn:En; [apply Z.ltb_lt in En; lia |].
    apply firstn_le_prefix. lia.
  - destruct (m <? 0) eqn:Em; [| apply Z.ltb_ge in Em; lia].
    destruct (n <? 0) eqn:En; [| apply Z.ltb_ge in En; lia].
    apply firstn_le_prefix. lia.
Qed.

Lemma join_app_prefix (sep : str) (a b : list str) :
  is_prefix_of (join sep a) (join sep (a ++ b)).
Proof.
  unfold is_prefix_of. induction a as [| x a IH].
  - exists (join sep b). reflexivity.
  - destruct a as [| y a].
    + destruct b as [| z b]; simpl.
      * exists []. rewrite app_nil_r. reflexivity.
      * eexists. reflexivity.
    + destruct IH as [rest IH].
      change (join sep ((x :: y :: a) ++ b)) with (x ++ sep ++ join sep ((y :: a) ++ b)).
      change (join sep (x :: y :: a)) with (x ++ sep ++ join sep (y :: a)).
      rewrite IH. exists rest. rewrite <- !app_assoc. reflexivity.
Qed.

Lemma join_linebreaks (l : list str) :
  Forall (fun line => no_linebreak line = true) l ->
  Forall (fun ch => is_linebreak ch = true -> ch = LF) (join newline l).
Proof.
  assert (Hline : forall x : str, no_linebreak x = true ->
            Forall (fun ch => is_linebreak ch = true -> ch = LF) x).
  { intros x Hx. apply Forall_forall. intros ch Hin Hbreak.
    unfold no_linebreak in Hx. rewrite forallb_forall in Hx.
    specialize (Hx ch Hin). rewrite Hbreak in Hx. discriminate Hx. }
  induction 1 as [| x l Hx Hl IH]; [constructor |].
  destruct l as [| y l]; [apply Hline, Hx |].
  change (join newline (x :: y :: l)) with (x ++ newline ++ join newline (y :: l)).
  apply Forall_app. split; [apply Hline, Hx |].
  apply Forall_app. split; [| exact IH].
  constructor; [reflexivity | constructor].
Qed.

Lemma splitlines_from_join (l : list str) (x cur : str) :
  no_linebreak x = true ->
  Forall (fun line => no_linebreak line = true) l ->
  (List.length (splitlines_from cur (join newline (x :: l))) <= S (List.length l))%nat.
Proof.
  revert x cur. induction l as [| y l IH]; intros x cur Hx Hl.
  - simpl join. rewrite <- (app_nil_r x), splitlines_from_app by exact Hx.
    simpl. destruct (rev x ++ cur); simpl; lia.
  - change (join newline (x :: y :: l)) with (x ++ newline ++ join newline (y :: l)).
    rewrite splitlines_from_app by exact Hx.
    inversion Hl as [| y' l' Hy Hl' Heq]; subst.
    remember (join newline (y :: l)) as rest eqn:Hrest.
    simpl. specialize (IH y [] Hy Hl'). rewrite <- Hrest in IH.
    destruct rest as [| d rest']; simpl in *; lia.
Qed.

Lemma splitlines_join_length (l : list str) :
  Forall (fun line => no_linebreak line = true) l ->
  (List.length (splitlines (join newline l)) <= List.length l)%nat.
Proof.
  intro Hl. destruct Hl as [| x l Hx Hl]; [simpl; lia |].
  apply splitlines_from_join; assumption.
Qed.

Lemma splitlines_one_line (s : str) :
  no_linebreak s = true ->
  splitlines s = match s with [] => [] | _ => [s] end.
Proof.
  intro Hs. unfold splitlines. destruct s as [| ch s]; [reflexivity |].
  rewrite <- (app_nil_r (ch :: s)) at 1. rewrite splitlines_from_app by exact Hs.
  rewrite app_nil_r. remember (rev (ch :: s)) as r eqn:Hr.
  destruct r as [| c0 r].
  - apply (f_equal (@List.length N)) in Hr. rewrite length_rev in Hr. discriminate Hr.
  - change (splitlines_from (c0 :: r) []) with [rev (c0 :: r)].
    rewrite Hr, rev_involutive. reflexivity.
Qed.

(** What the line-limited lookup returns, from the executor's text. *)
Lemma outcome_vulscan_output_limit
    (env : Request -> Behaviour) (target database : str) (limit : Z) :
  exists full_output : str,
    (forall limit' : Z,
        executor_text env (argument_vector (Vulscan_output_limit target database limit'))
        = Returned full_output)
    /\ outcome env (dispatch (Vulscan_output_limit target database limit))
       = Returned (join newline (slice_to (splitlines full_output) limit)).
Proof.
  destruct (executor_returns env
              (argument_vector (Vulscan_output_limit target database limit)))
    as [full_output Hfull].
  exists full_output. split; [intro limit'; exact Hfull |].
  rewrite outcome_dispatch, Hfull. reflexivity.
Qed.

(** X5. With a limit that is not negative, the text the line-limited lookup
    returns has at most [limit] lines. *)
Theorem line_limit_bounds_the_lines
    (env : Request -> Behaviour) (target database result : str) (limit : Z) :
  0 <= limit ->
  outcome env (dispatch (Vulscan_output_limit target database limit)) = Returned result ->
  Z.of_nat (List.length (splitlines result)) <= limit.
Proof.
  intros Hlimit Hout.
  destruct (outcome_vulscan_output_limit env target database limit)
    as [full_output [_ Hres]].
  rewrite Hres in Hout. injection Hout as <-.
  pose proof (splitlines_join_length (slice_to (splitlines full_output) limit)
                (Forall_slice_to _ _ limit (splitlines_no_linebreak full_output))) as Hlen.
  pose proof (length_slice_to (splitlines full_output) limit Hlimit). lia.
Qed.

(** X6. Whatever line terminators the executor's text uses, the only line
    break in the text the line-limited lookup returns is the newline. *)
Theorem line_limit_leaves_only_newlines
    (env : Request -> Behaviour) (target database result : str) (limit : Z) :
  outcome env (dispatch (Vulscan_output_limit target database limit)) = Returned result ->
  Forall (fun ch => is_linebreak ch = true -> ch = LF) result.
Proof.
  intro Hout.
  destruct (outcome_vulscan_output_limit env target database limit)
    as [full_output [_ Hres]].
  rewrite Hres in Hout. injection Hout as <-.
  apply join_linebreaks, Forall_slice_to, splitlines_no_linebreak.
Qed.

(** X7. Between two limits of the same sign, the lookup with the smaller
    limit returns a prefix of what the lookup with the larger limit returns,
    for the same text of the executor. *)
Theorem line_limit_grows_by_appending
    (env : Request -> Behaviour) (target database smaller larger : str) (m n : Z) :
  0 <= m <= n \/ m <= n < 0 ->
  outcome env (dispatch (Vulscan_output_limit target database m)) = Returned smaller ->
  outcome env (dispatch (Vulscan_output_limit target database n)) = Returned larger ->
  is_prefix_of smaller larger.
Proof.
  intros Hmn Hm Hn.
  destruct (outcome_vulscan_output_limit env target database m) as [full [Hfull Hres_m]].
  destruct (outcome_vulscan_output_limit env target database n) as [full' [Hfull' Hres_n]].
  assert (Hsame : full' = full).
  { specialize (Hfull 0). specialize (Hfull' 0). congruence. }
  subst full'.
  rewrite Hres_m in Hm. rewrite Hres_n in Hn.
  injection Hm as <-. injection Hn as <-.
  destruct (slice_to_prefix (splitlines full) m n Hmn) as [t Ht].
  rewrite Ht. apply join_app_prefix.
Qed.

(** X8. With a limit of at least 1, a text of the executor that holds no
    line break comes back unchanged from the line-limited lookup. *)
Theorem line_limit_keeps_a_one_line_text
    (env : Request -> Behaviour) (target database full_output : str) (limit : Z) :
  executor_text env (argument_vector (Vulscan_output_limit target database limit))
  = Returned full_output ->
  no_linebreak full_output = true ->
  1 <= limit ->
  outcome env (dispatch (Vulscan_output_limit target database limit))
  = Returned full_output.
Proof.
  intros Hfull Hline Hlimit.
  rewrite outcome_dispatch, Hfull. cbv beta iota zeta.
  rewrite (splitlines_one_line _ Hline).
  destruct full_output as [| ch s].
  - rewrite slice_to_nonnegative by lia. simpl. rewrite firstn_nil. reflexivity.
  - rewrite slice_to_whole by (simpl; lia). reflexivity.
Qed.

(** ** Numbers in a vector *)

Lemma lit_injective (a b : string) : lit a = lit b -> a = b.
Proof.
  unfold lit. intro H.
  rewrite <- (string_of_list_ascii_of_string a), <- (string_of_list_ascii_of_string b).
  f_equal. revert H.
  generalize (list_ascii_of_string a) (list_ascii_of_string b).
  induction l as [| x l IH]; intros [| y l'] H; simpl in H; try discriminate H.
  - reflexivity.
  - injection H as Hxy Hl. f_equal; [| apply IH, Hl].
    rewrite <- (ascii_N_embedding x), <- (ascii_N_embedding y), Hxy. reflexivity.
Qed.

Lemma to_int_not_nil (z : Z) : Z.to_int z <> Decimal.Pos Decimal.Nil /\ Z.to_int z <> Decimal.Neg Decimal.Nil.
Proof.
  destruct z as [| p | p]; simpl; split; intro H; try discriminate H;
    injection H as H; apply (DecimalPos.Unsigned.to_uint_nonnil p H).
Qed.

Lemma str_int_injective (a b : Z) : str_int a = str_int b -> a = b.
Proof.
  unfold str_int. intro H. apply lit_injective in H.
  apply (f_equal NilZero.int_of_string) in H.
  rewrite !NilZero.isi in H by apply to_int_not_nil.
  injection H as H.
  rewrite <- (DecimalZ.of_to a), <- (DecimalZ.of_to b), H. reflexivity.
Qed.




(** X10. The vector of a top-ports scan determines the number of ports:
    two calls with the same vector asked for the same number. *)
Theorem top_ports_vector_determines_the_number (target target' : str) (a b : Z) :
  argument_vector (Scan_top_ports target a) = argument_vector (Scan_top_ports target' b)
  \/ argument_vector (Top_ports_scan_no_ping target a)
     = argument_vector (Top_ports_scan_no_ping target' b) ->
  a = b.
Proof.
  intros [H | H]; injection H as H _; apply str_int_injective, H.
Qed.

(** ** What a caller can tell from a text *)

(** X11. Every result of a catalog call, failure texts included, is also
    the result of a run in which the process ended normally: the text alone
    does not tell a failure from a success. *)
Theorem every_text_is_also_a_success_text (env : Request -> Behaviour) (c : Call) :
  exists out : str,
    forall (err : str) (rc : Z),
      outcome (fun _ => Exits out err rc) (dispatch c) = outcome env (dispatch c).
Proof.
  destruct (executor_returns env (argument_vector c)) as [full Hfull].
  exists full. intros err rc.
  rewrite !outcome_dispatch, Hfull, executor_text_eq. reflexivity.
Qed.

Lemma outcome_raw_exits (env : Request -> Behaviour) (command out err : str) (rc : Z) :
  env (raw_request command) = Exits out err rc ->
  outcome env (execute_custom_nmap_command command)
  = Returned (if truthy (raw_sections out err rc)
              then raw_sections out err rc
              else no_output_sentinel).
Proof.
  intro Henv.
  unfold outcome, execute_custom_nmap_command, subprocess_run. simpl.
  fold (raw_request command). rewrite Henv. simpl.
  unfold raw_sections.
  destruct out as [| o out']; destruct err as [| e err'];
    destruct (Z.eq_dec rc 0) as [Hrc | Hrc];
    try (apply Z.eqb_eq in Hrc); try (apply Z.eqb_neq in Hrc);
    rewrite Hrc; simpl; repeat (rewrite <- app_assoc; simpl);
    rewrite ?app_nil_r; reflexivity.
Qed.

(** X12. The raw path never returns the empty string, whatever the command
    does. *)
Theorem raw_text_is_never_empty (env : Request -> Behaviour) (command : str) :
  exists s : str,
    outcome env (execute_custom_nmap_command command) = Returned s /\ s <> [].
Proof.
  destruct (env (raw_request command)) as [out err rc | po pe | message] eqn:Henv.
  - rewrite (outcome_raw_exits env command out err rc Henv).
    destruct (raw_sections out err rc) as [| ch tail].
    + eexists. split; [reflexivity | discriminate].
    + eexists. split; [reflexivity | discriminate].
  - unfold outcome, execute_custom_nmap_command, subprocess_run. simpl.
    fold (raw_request command). rewrite Henv.
    eexists. split; [reflexivity | discriminate].
  - unfold outcome, execute_custom_nmap_command, subprocess_run. simpl.
    fold (raw_request command). rewrite Henv.
    eexists. split; [reflexivity | discriminate].
Qed.

(** X13. The raw path's text does not determine what was printed where: a
    command that prints [a] on stdout and [b] on stderr gets the text of a
    command that prints [a], a newline, the stderr heading, a newline and
    [b] on stdout alone, for the same exit code. *)
Theorem raw_text_is_ambiguous
    (env env' : Request -> Behaviour) (command a b : str) (rc : Z) :
  a <> [] -> b <> [] ->
  env (raw_request command) = Exits a b rc ->
  env' (raw_request command)
  = Exits (a ++ newline ++ lit "STDERR:" ++ newline ++ b) [] rc ->
  outcome env (execute_custom_nmap_command command)
  = outcome env' (execute_custom_nmap_command command).
Proof.
  intros Ha Hb Henv Henv'.
  rewrite (outcome_raw_exits env command _ _ _ Henv),
          (outcome_raw_exits env' command _ _ _ Henv').
  assert (Heq : raw_sections a b rc
                = raw_sections (a ++ newline ++ lit "STDERR:" ++ newline ++ b) [] rc).
  { unfold raw_sections.
    destruct a as [| x a']; [contradiction |].
    destruct b as [| y b']; [contradiction |].
    simpl. repeat (rewrite <- app_assoc; simpl). reflexivity. }
  rewrite Heq. reflexivity.
Qed.

(** ** The shape of the vectors *)

(** X14. In every catalog call that takes a [target], the target is the
    last element of the vector. *)
Theorem target_is_the_last_element (c : Call) (target : str) :
  In ("target"%string, VStr target) (arguments c) ->
  exists front : list str, argument_vector c = front ++ [target].
Proof.
  intro Hin. exists (removelast (argument_vector c)).
  destruct c; simpl in Hin;
    repeat (destruct Hin as [Hin | Hin]; [try discriminate Hin |]);
    try contradiction;
    injection Hin as <-; reflexivity.
Qed.

(** X15. The vector of a no-ping variant is the vector of its base scan with
    [-Pn] placed just before the target; for the port scan the variant also
    leaves out the [-T4] the base scan has there. *)
Theorem no_ping_variant_adds_Pn (c c' : Call) :
  no_ping_variant c = Some c' ->
  exists (front : list str) (target : str),
    argument_vector c' = front ++ [lit "-Pn"; target]
    /\ argument_vector c
       = front ++ match c with Port_scan _ _ => [lit "-T4"] | _ => [] end ++ [target].
Proof.
  intro Hvariant.
  exists (removelast (removelast (argument_vector c'))), (last (argument_vector c') []).
  destruct c; try discriminate Hvariant;
    injection Hvariant as <-; split; reflexivity.
Qed.

(** X16. The database name is not kept apart from the other script
    arguments: the basic lookup on a database name followed by the
    interactive setting is the interactive lookup, and followed by an output
    template it is the custom-output lookup, request and result alike. *)
Theorem database_name_can_carry_script_arguments
    (env : Request -> Behaviour) (target database custom_template : str) :
  run env (dispatch (Vulscan_basic target (database ++ lit ",vulscaninteractive=1")))
  = run env (dispatch (Vulscan_interactive target database))
  /\ run env (dispatch (Vulscan_basic target
                          (database ++ lit ",vulscanoutput='" ++ custom_template ++ lit "'")))
     = run env (dispatch (Vulscan_custom_output target database custom_template)).
Proof.
  unfold dispatch, vulscan_basic, vulscan_interactive, vulscan_custom_output.
  rewrite <- !app_assoc. split; reflexivity.
Qed.

(** X17. For commands that print nothing, the raw path's text determines
    the exit code: two such commands with the same text ended with the same
    code. *)
Theorem silent_raw_text_determines_exit_code
    (env env' : Request -> Behaviour) (command command' : str) (rc rc' : Z) :
  env (raw_request command) = Exits [] [] rc ->
  env' (raw_request command') = Exits [] [] rc' ->
  outcome env (execute_custom_nmap_command command)
  = outcome env' (execute_custom_nmap_command command') ->
  rc = rc'.
Proof.
  intros Henv Henv' Hsame.
  rewrite (outcome_raw_exits env command _ _ _ Henv),
          (outcome_raw_exits env' command' _ _ _ Henv') in Hsame.
  unfold raw_sections in Hsame.
  destruct (Z.eq_dec rc 0) as [Hrc | Hrc]; destruct (Z.eq_dec rc' 0) as [Hrc' | Hrc'];
    simpl in Hsame; try discriminate Hsame.
  - congruence.
  - injection Hsame as Hsame.
    apply app_inv_tail in Hsame. apply str_int_injective, Hsame.
Qed.

End Gateway.

(** ** The claims at concrete inputs *)

(** C1 as stated fails: in the default vulnerability lookup the database
    name is no element of the vector, it is part of the quoted script
    argument. *)
Lemma database_name_has_no_element_of_its_own :
  argument_vector quoted (Vulscan_basic localhost cve_csv)
  = [lit "-sV"; lit "--script=vulscan/vulscan.nse"; lit "--script-args";
     dquote ++ lit "vulscandb=cve.csv" ++ dquote; localhost]
  /\ ~ OneSlotEach (supplied_values (Vulscan_basic localhost cve_csv))
         (argument_vector quoted (Vulscan_basic localhost cve_csv)).
Proof.
  split; [reflexivity |].
  intro H. apply OneSlotEach_value_in with (v := VStr cve_csv) in H.
  - vm_compute in H. repeat (destruct H as [H | H]; [discriminate H |]). exact H.
  - right. left. reflexivity.
Qed.

(** C3 as stated fails: with a limit of 0 the line-limited lookup answers
    a failed execution with the empty string. *)
Lemma line_limit_zero_returns_empty_on_failure :
  outcome binary_missing
    (subprocess_run
       (Argv (lit "nmap" :: argument_vector quoted (Vulscan_output_limit localhost cve_csv 0)))
       false 60)
  = Propagated (OtherException (lit "[Errno 2] No such file or directory: 'nmap'"))
  /\ outcome binary_missing (dispatch quoted (Vulscan_output_limit localhost cve_csv 0))
     = Returned [].
Proof. split; reflexivity. Qed.

(** C7 as stated fails: with a limit of -1 and a text of three lines the
    lookup returns the first two lines, not the first [limit] lines. *)
Lemma negative_limit_is_not_a_line_count :
  executor_text quoted (three_lines 0)
    (argument_vector quoted (Vulscan_output_limit localhost cve_csv (-1)))
  = Returned (lit "a" ++ newline ++ lit "b" ++ newline ++ lit "c")
  /\ outcome (three_lines 0) (dispatch quoted (Vulscan_output_limit localhost cve_csv (-1)))
     = Returned (lit "a" ++ newline ++ lit "b")
  /\ outcome (three_lines 0) (dispatch quoted (Vulscan_output_limit localhost cve_csv (-1)))
     <> Returned (join newline
                    (first_lines (-1) (lit "a" ++ newline ++ lit "b" ++ newline ++ lit "c"))).
Proof.
  split; [reflexivity |]. split; [reflexivity |].
  intro H. vm_compute in H. discriminate H.
Qed.

(** C10 as stated fails: a text of one line ended by a newline has fewer
    lines than a limit of 5, and the lookup returns it without its newline,
    not whole. *)
Lemma short_response_is_not_returned_whole :
  executor_text quoted one_line
    (argument_vector quoted (Vulscan_output_limit localhost cve_csv 5))
  = Returned (lit "a" ++ newline)
  /\ (Z.of_nat (List.length (splitlines (lit "a" ++ newline))) < 5)
  /\ outcome one_line (dispatch quoted (Vulscan_output_limit localhost cve_csv 5))
     = Returned (lit "a")
  /\ outcome one_line (dispatch quoted (Vulscan_output_limit localhost cve_csv 5))
     <> Returned (lit "a" ++ newline).
Proof.
  split; [reflexivity |]. split; [vm_compute; reflexivity |]. split; [reflexivity |].
  intro H. vm_compute in H. discriminate H.
Qed.

(** C4 as stated fails: with a limit of 0 the line-limited lookup answers
    an overrun of the deadline with the empty string, which names no
    timeout. *)
Lemma line_limit_zero_returns_empty_on_timeout :
  too_slow (catalog_request
              (argument_vector quoted (Vulscan_output_limit localhost cve_csv 0)))
  = Overruns (Some (lit "Starting Nmap")) None
  /\ outcome too_slow (dispatch quoted (Vulscan_output_limit localhost cve_csv 0))
     = Returned [].
Proof. split; reflexivity. Qed.

(** C5 as stated fails: with a limit of 1 and a process that prints three
    lines and ends with code 1, the line-limited lookup returns the first
    line, not the captured stdout. *)
Lemma line_limit_returns_part_of_stdout :
  three_lines 1 (catalog_request
                   (argument_vector quoted (Vulscan_output_limit localhost cve_csv 1)))
  = Exits (lit "a" ++ newline ++ lit "b" ++ newline ++ lit "c") (lit "warning") 1
  /\ outcome (three_lines 1) (dispatch quoted (Vulscan_output_limit localhost cve_csv 1))
     = Returned (lit "a")
  /\ outcome (three_lines 1) (dispatch quoted (Vulscan_output_limit localhost cve_csv 1))
     <> Returned (lit "a" ++ newline ++ lit "b" ++ newline ++ lit "c").
Proof.
  split; [reflexivity |]. split; [reflexivity |].
  intro H. vm_compute in H. discriminate H.
Qed.

(** C6 as stated fails twice: under the default limit of 4300 digits, a
    top-ports scan asked for 10^4300 ports raises and starts no process;
    and with a limit of 0 the line-limited lookup turns a fault of process
    creation into the empty string, which carries no message. *)
Lemma huge_number_raises_and_limit_zero_drops_the_message :
  run binary_missing (invoke quoted 4300 (Scan_top_ports localhost (10 ^ 4300)))
  = ([], Propagated
           (OtherException
              (lit "Exceeds the limit (4300 digits) for integer string conversion; use sys.set_int_max_str_digits() to increase the limit")))
  /\ binary_missing
       (catalog_request (argument_vector quoted (Vulscan_output_limit localhost cve_csv 0)))
     = Fails (lit "[Errno 2] No such file or directory: 'nmap'")
  /\ outcome binary_missing (invoke quoted 4300 (Vulscan_output_limit localhost cve_csv 0))
     = Returned [].
Proof.
  split; [vm_compute; reflexivity |]. split; reflexivity.
Qed.

(** ** Instances of the theorems *)

Lemma failure_text_states_the_error_witness :
  outcome binary_missing (dispatch quoted (Simple_scan localhost))
  = Returned (lit "Error running Nmap: [Errno 2] No such file or directory: 'nmap'").
Proof.
  exact (proj2 (proj2
           (failure_text_states_the_error quoted binary_missing (Simple_scan localhost)
              (OtherException (lit "[Errno 2] No such file or directory: 'nmap'"))
              eq_refl))).
Defined.

Lemma same_response_same_result_witness :
  outcome (three_lines 0) (dispatch quoted (Vulscan_output_limit localhost cve_csv 2))
  = outcome
      (fun req =>
         match req_cmd req with
         | Argv _ => three_lines 0 req
         | CommandLine _ => Fails []
         end)
      (dispatch quoted (Vulscan_output_limit localhost cve_csv 2)).
Proof.
  exact (proj2
           (same_response_same_result quoted (three_lines 0)
              (fun req =>
                 match req_cmd req with
                 | Argv _ => three_lines 0 req
                 | CommandLine _ => Fails []
                 end)
              (Vulscan_output_limit localhost cve_csv 2) eq_refl)).
Defined.

Lemma line_limit_keeps_first_lines_witness :
  0 <= 2
  /\ exists full_output : str,
       executor_text quoted (three_lines 0)
         (argument_vector quoted (Vulscan_output_limit localhost cve_csv 2))
       = Returned full_output
       /\ outcome (three_lines 0) (dispatch quoted (Vulscan_output_limit localhost cve_csv 2))
          = Returned (join newline (first_lines 2 full_output)).
Proof.
  assert (H : 0 <= 2) by (intro Hc; discriminate Hc).
  split; [exact H |].
  destruct (line_limit_keeps_first_lines quoted (three_lines 0) localhost cve_csv 2 H)
    as [full_output [Hfull [Hout _]]].
  exists full_output. split; [exact Hfull | exact Hout].
Defined.

Lemma line_limit_follows_slice_rule_witness :
  outcome (three_lines 0) (dispatch quoted (Vulscan_output_limit localhost cve_csv 7))
  = Returned (lit "a" ++ newline ++ lit "b" ++ newline ++ lit "c")
  /\ outcome (three_lines 0) (dispatch quoted (Vulscan_output_limit localhost cve_csv 0))
     = Returned []
  /\ outcome (three_lines 0) (dispatch quoted (Vulscan_output_limit localhost cve_csv (-2)))
     = Returned (lit "a").
Proof.
  split; [| split].
  - refine (proj1 (proj2
             (line_limit_follows_slice_rule quoted (three_lines 0) localhost cve_csv
                (lit "a" ++ newline ++ lit "b" ++ newline ++ lit "c") 7 eq_refl)) _).
    intro Hc. discriminate Hc.
  - exact (proj1 (proj2 (proj2
             (line_limit_follows_slice_rule quoted (three_lines 0) localhost cve_csv
                (lit "a" ++ newline ++ lit "b" ++ newline ++ lit "c") 0 eq_refl)))
             eq_refl).
  - exact (proj2 (proj2 (proj2
             (line_limit_follows_slice_rule quoted (three_lines 0) localhost cve_csv
                (lit "a" ++ newline ++ lit "b" ++ newline ++ lit "c") (-2) eq_refl)))
             eq_refl).
Defined.

Lemma raw_report_sections_witness :
  outcome (silent 1) (execute_custom_nmap_command quoted (lit "false"))
  = Returned (lit "Return Code: 1" ++ newline)
  /\ outcome (silent 0) (execute_custom_nmap_command quoted (lit "true"))
     = Returned (lit "Command executed successfully with no output.").
Proof.
  split.
  - refine (proj2 (proj2
             (raw_report_sections quoted (silent 1) (lit "false") [] [] 1 eq_refl))
             eq_refl eq_refl _).
    intro Hc. discriminate Hc.
  - exact (proj1
             (raw_report_sections quoted (silent 0) (lit "true") [] [] 0 eq_refl)
             (conj eq_refl (conj eq_refl eq_refl))).
Defined.

Lemma timeout_text_of_catalog_calls_witness :
  outcome too_slow (dispatch quoted (Port_scan localhost (lit "80,443")))
  = Returned
      (lit "Error running Nmap: Command '['nmap', '-p', '80,443', '-T4', '127.0.0.1']' timed out after 60 seconds").
Proof.
  exact (proj1 (proj2
           (timeout_text_of_catalog_calls quoted too_slow
              (Port_scan localhost (lit "80,443")) (Some (lit "Starting Nmap")) None
              eq_refl))).
Defined.

Lemma completed_process_gives_its_stdout_witness :
  outcome (three_lines 1) (dispatch quoted (Simple_scan localhost))
  = Returned (lit "a" ++ newline ++ lit "b" ++ newline ++ lit "c").
Proof.
  exact (proj1
           (completed_process_gives_its_stdout quoted (three_lines 1) (Simple_scan localhost)
              (lit "a" ++ newline ++ lit "b" ++ newline ++ lit "c") (lit "warning") 1
              eq_refl)).
Defined.

Lemma faults_become_text_unless_str_raises_witness :
  outcome binary_missing (invoke quoted 4300 (Scan_top_ports localhost 10))
  = Returned (lit "Error running Nmap: [Errno 2] No such file or directory: 'nmap'")
  /\ outcome nul_in_command (execute_custom_nmap_command quoted (lit "nmap -h" ++ [0%N]))
     = Returned (lit "Error executing command: embedded null byte").
Proof.
  split.
  - destruct (faults_become_text_unless_str_raises quoted 4300 binary_missing)
      as [_ [Hcatalog _]].
    exact (Hcatalog (Scan_top_ports localhost 10)
             (lit "[Errno 2] No such file or directory: 'nmap'") eq_refl eq_refl).
  - destruct (faults_become_text_unless_str_raises quoted 4300 nul_in_command)
      as [_ [_ [_ [_ [Hraw _]]]]].
    exact (Hraw (lit "nmap -h" ++ [0%N]) (lit "embedded null byte") eq_refl).
Defined.

(** ** Instances of the further theorems *)

Lemma host_list_round_trip_witness :
  argument_vector quoted (Scan_multiple_hosts (lit "192.168.1.1 192.168.1.2"))
  = [lit "192.168.1.1"; lit "192.168.1.2"].
Proof.
  refine (host_list_round_trip quoted [lit "192.168.1.1"; lit "192.168.1.2"] _).
  repeat constructor; discriminate.
Defined.

Lemma one_host_list_is_a_single_host_scan_witness :
  run (three_lines 0) (dispatch quoted (Scan_multiple_hosts localhost))
  = run (three_lines 0) (dispatch quoted (Single_host_scan localhost)).
Proof.
  refine (proj1 (one_host_list_is_a_single_host_scan quoted (three_lines 0) localhost _)).
  split; [discriminate | reflexivity].
Defined.

Lemma line_limit_bounds_the_lines_witness :
  Z.of_nat (List.length (splitlines (lit "a" ++ newline ++ lit "b"))) <= 2.
Proof.
  refine (line_limit_bounds_the_lines quoted (three_lines 0) localhost cve_csv
            (lit "a" ++ newline ++ lit "b") 2 _ eq_refl).
  intro Hc. discriminate Hc.
Defined.

Lemma line_limit_leaves_only_newlines_witness :
  Forall (fun ch => is_linebreak ch = true -> ch = LF) (lit "a" ++ newline ++ lit "b").
Proof.
  exact (line_limit_leaves_only_newlines quoted crlf_lines localhost cve_csv
           (lit "a" ++ newline ++ lit "b") 5 eq_refl).
Defined.

Lemma line_limit_grows_by_appending_witness :
  is_prefix_of (lit "a") (lit "a" ++ newline ++ lit "b").
Proof.
  refine (line_limit_grows_by_appending quoted (three_lines 0) localhost cve_csv
            (lit "a") (lit "a" ++ newline ++ lit "b") 1 2 _ eq_refl eq_refl).
  left. split; intro Hc; discriminate Hc.
Defined.

Lemma line_limit_keeps_a_one_line_text_witness :
  outcome binary_missing (dispatch quoted (Vulscan_output_limit localhost cve_csv 10))
  = Returned (lit "Error running Nmap: [Errno 2] No such file or directory: 'nmap'").
Proof.
  refine (line_limit_keeps_a_one_line_text quoted binary_missing localhost cve_csv
            (lit "Error running Nmap: [Errno 2] No such file or directory: 'nmap'") 10
            eq_refl eq_refl _).
  intro Hc. discriminate Hc.
Defined.

Lemma top_ports_vector_determines_the_number_witness : 10 = 10.
Proof.
  exact (top_ports_vector_determines_the_number quoted localhost localhost 10 10
           (or_introl eq_refl)).
Defined.

Lemma raw_text_is_ambiguous_witness :
  outcome (fun _ => Exits (lit "done") (lit "warning") 0)
    (execute_custom_nmap_command quoted (lit "nmap -h"))
  = outcome
      (fun _ => Exits (lit "done" ++ newline ++ lit "STDERR:" ++ newline ++ lit "warning") [] 0)
      (execute_custom_nmap_command quoted (lit "nmap -h")).
Proof.
  refine (raw_text_is_ambiguous quoted
            (fun _ => Exits (lit "done") (lit "warning") 0)
            (fun _ => Exits (lit "done" ++ newline ++ lit "STDERR:" ++ newline ++ lit "warning") [] 0)
            (lit "nmap -h") (lit "done") (lit "warning") 0 _ _ eq_refl eq_refl);
    discriminate.
Defined.

Lemma target_is_the_last_element_witness :
  exists front : list str,
    argument_vector quoted (Port_scan localhost (lit "80,443")) = front ++ [localhost].
Proof.
  exact (target_is_the_last_element quoted (Port_scan localhost (lit "80,443")) localhost
           (or_introl eq_refl)).
Defined.

Lemma no_ping_variant_adds_Pn_witness :
  exists (front : list str) (target : str),
    argument_vector quoted (Port_scan_no_ping localhost (lit "80,443"))
    = front ++ [lit "-Pn"; target]
    /\ argument_vector quoted (Port_scan localhost (lit "80,443"))
       = front ++ [lit "-T4"] ++ [target].
Proof.
  exact (no_ping_variant_adds_Pn quoted (Port_scan localhost (lit "80,443"))
           (Port_scan_no_ping localhost (lit "80,443")) eq_refl).
Defined.

Lemma silent_raw_text_determines_exit_code_witness : 1 = 1.
Proof.
  exact (silent_raw_text_determines_exit_code quoted (silent 1) (silent 1)
           (lit "false") (lit "exit 1") 1 1 eq_refl eq_refl eq_refl).
Defined.
